(** * local-research: the orchestration graph, the report stage and the
      model configuration, embedded from the Python sources

    The development follows three source files:
    - [local_research/agent.py]: the top-level graph and [route_after_scoping];
    - [local_research/research_report.py]: the two nodes of the report
      subgraph and the nested [execute_tools];
    - [local_research/model_config.py]: parsing of model strings and the
      fallback chain of [init_chat_model_from_env].

    Python exceptions are values of [PyExn]; a call that may raise returns a
    [Result].  Calls that reach the outside (the chat model, the MCP tool
    server) run in a state-and-exception monad [M] over an abstract world,
    and every such call leaves an [Event] in a log, so that statements about
    order and number of calls are statements about that log.  [print] only
    writes to stdout and is left out. *)

From Stdlib Require Import ZArith Ascii String List Lia.
From stdpp Require Import base option list strings gmap pretty.
Import ListNotations.
Open Scope string_scope.
Open Scope list_scope.

(** ** Exceptions and results *)

(** The subclasses of Python's [Exception] that the modelled code can meet. *)
Inductive PyExn : Type :=
| KeyError (key : string)
| ValueError (msg : string)
| ImportError (msg : string)
| ToolException (msg : string)
| GraphRecursionError
| InvalidUpdateError (msg : string)
| OtherException (msg : string).

Inductive Result (A : Type) : Type :=
| Ok (a : A)
| Raise (e : PyExn).
Arguments Ok {A} a.
Arguments Raise {A} e.

(** ** Messages, tool calls and the shared state *)

(** The [args] dict of a tool call, as key/value pairs. *)
Definition Args : Type := list (string * string).

(** One entry of [AIMessage.tool_calls]: [{"name": .., "args": .., "id": ..}]. *)
Record ToolCall : Type := mkToolCall {
  tc_name : string;
  tc_args : Args;
  tc_id : string
}.

(** An assistant turn whose [content] is text; a turn whose content is a
    list of blocks is outside of what is modelled here. *)
Record AIMessage : Type := mkAIMessage {
  content : string;
  tool_calls : list ToolCall
}.

(** What the [messages] channel receives in these files: a bare string (as
    in ["Here is the final report: " + ...]), an assistant turn, or a
    [ToolMessage(content=.., name=.., tool_call_id=..)]. *)
Inductive Message : Type :=
| TextMessage (text : string)
| AssistantMessage (m : AIMessage)
| ToolMessage (tm_content tm_name tm_tool_call_id : string).

(** The value held under the key ["final_report"]: the report nodes store
    the whole assistant turn there first and its [content] string later. *)
Inductive ReportValue : Type :=
| ReportTurn (m : AIMessage)
| ReportText (s : string).

(** [AgentState], a dict: an absent key is [None]. *)
Record AgentState : Type := mkAgentState {
  messages : list Message;
  research_brief : option string;
  notes : option (list string);
  final_report : option ReportValue
}.

(** A partial update, the dict given as [update=] of a [Command] or returned
    by a node: [None] is a key that is not written. *)
Record Update : Type := mkUpdate {
  u_messages : option (list Message);
  u_research_brief : option string;
  u_notes : option (list string);
  u_final_report : option ReportValue
}.

Definition empty_update : Update := mkUpdate None None None None.

(** Merging an update into the state.  [messages] and [notes] accumulate,
    the other keys are overwritten. *)
Definition apply_update (st : AgentState) (u : Update) : AgentState :=
  {| messages := messages st ++ default [] (u_messages u);
     research_brief :=
       match u_research_brief u with Some b => Some b | None => research_brief st end;
     notes :=
       match u_notes u with
       | Some ns => Some (default [] (notes st) ++ ns)
       | None => notes st
       end;
     final_report :=
       match u_final_report u with Some r => Some r | None => final_report st end |}.

Definition START : string := "__start__".
Definition END : string := "__end__".

(** [Command(goto=.., update=..)]; a node that returns a plain dict has no
    [goto]. *)
Record Command : Type := mkCommand {
  goto : option string;
  update : Update
}.

(** ** The tool gateway and the model gateway *)

Record Tool : Type := mkTool {
  tool_name : string;
  tool_description : string
}.

(** What happens during a run, in order. *)
Inductive Event : Type :=
| EvNode (name : string)
| EvWrite (name : string) (u : Update)
| EvNewClient
| EvGetTools
| EvModel (tools : list Tool) (prompt : list Message)
| EvTool (t : Tool) (args : Args).

(** The outside of the process: [W] is the state of the model backend and
    of the MCP server with its files.  The fields are
    [MultiServerMCPClient.get_tools], [model.bind_tools(tools).ainvoke] and
    [tool.ainvoke] of the libraries, then
    [final_report_generator_prompt.format(research_brief=, findings=, date=)]
    and [get_today_str()] of [local_research.prompts] and
    [local_research.utils]. *)
Class Gateways (W : Type) : Type := {
  client_get_tools : W -> W * Result (list Tool);
  model_ainvoke : list Tool -> list Message -> W -> W * Result AIMessage;
  tool_ainvoke : Tool -> Args -> W -> W * Result string;
  final_report_generator_prompt : string -> string -> string -> string;
  get_today_str : W -> string
}.

(** The module-level [_client] ([true] once created), the world, the log. *)
Record Env (W : Type) : Type := mkEnv {
  world : W;
  client_created : bool;
  events : list Event
}.
Arguments mkEnv {W} world client_created events.
Arguments world {W} e.
Arguments client_created {W} e.
Arguments events {W} e.

Definition M (W A : Type) : Type := Env W -> Env W * Result A.

#[global] Instance M_ret {W : Type} : MRet (M W) := fun A a env => (env, Ok a).
#[global] Instance M_bind {W : Type} : MBind (M W) := fun A B k m env =>
  match m env with
  | (env', Ok a) => k a env'
  | (env', Raise e) => (env', Raise e)
  end.

Definition raise {W A : Type} (e : PyExn) : M W A := fun env => (env, Raise e).

Definition emit {W : Type} (ev : Event) : M W unit := fun env =>
  (mkEnv (world env) (client_created env) (events env ++ [ev]), Ok tt).

(** An external call: it changes the world and nothing else. *)
Definition lift_world {W A : Type} (f : W -> W * Result A) : M W A := fun env =>
  (mkEnv (fst (f (world env))) (client_created env) (events env),
   snd (f (world env))).

Definition read_world {W A : Type} (f : W -> A) : M W A := fun env =>
  (env, Ok (f (world env))).

(** [get_mcp_client]: creates the client on first use, reuses it after. *)
Definition get_mcp_client {W : Type} : M W unit := fun env =>
  if client_created env then (env, Ok tt)
  else (mkEnv (world env) true (events env ++ [EvNewClient]), Ok tt).

Section Report.

Context {W : Type} {G : Gateways W}.

(** [await client.get_tools()] *)
Definition get_tools : M W (list Tool) :=
  _ ← emit EvGetTools; lift_world client_get_tools.

(** ** research_report.py *)

Definition newline : string := String "010"%char EmptyString.

(** [final_report_generation] *)
Definition final_report_generation (state : AgentState) : M W Command :=
  let notes := default [] (notes state) in
  let findings := String.concat newline notes in
  date ← read_world get_today_str;
  let final_report_prompt :=
    final_report_generator_prompt
      (default "" (research_brief state)) findings date in
  _ ← get_mcp_client;
  tools ← get_tools;
  let prompt := [TextMessage final_report_prompt] in
  _ ← emit (EvModel tools prompt);
  final_report ← lift_world (model_ainvoke tools prompt);
  mret {| goto := Some "final_report_tools";
          update := {| u_messages :=
                         Some [TextMessage ("Here is the final report: "
                                            +:+ content final_report)];
                       u_research_brief := None;
                       u_notes := None;
                       u_final_report := Some (ReportTurn final_report) |} |}.

(** [{tool.name: tool for tool in tools}]: a later tool of the same name
    replaces an earlier one. *)
Definition tools_by_name_of (tools : list Tool) : gmap string Tool :=
  foldl (fun m tool => <[tool_name tool := tool]> m) ∅ tools.

(** The [for tool_call in tool_calls] loop of [execute_tools], with the
    list [observations] it appends to. *)
Fixpoint execute_loop (tools_by_name : gmap string Tool)
    (calls : list ToolCall) (observations : list string) : M W (list string) :=
  match calls with
  | [] => mret observations
  | tool_call :: rest =>
      match tools_by_name !! tc_name tool_call with
      | None => raise (KeyError (tc_name tool_call))
      | Some tool =>
          _ ← emit (EvTool tool (tc_args tool_call));
          observation ← lift_world (tool_ainvoke tool (tc_args tool_call));
          execute_loop tools_by_name rest (observations ++ [observation])
      end
  end.

(** The list comprehension over [zip(observations, tool_calls)]. *)
Definition format_tool_outputs (observations : list string)
    (calls : list ToolCall) : list Message :=
  map (fun p : string * ToolCall =>
         ToolMessage (fst p) (tc_name (snd p)) (tc_id (snd p)))
      (combine observations calls).

(** [execute_tools], nested in [final_report_tools] and closed over its
    [tool_calls]. *)
Definition execute_tools (calls : list ToolCall) : M W (list Message) :=
  _ ← get_mcp_client;
  tools ← get_tools;
  let tools_by_name := tools_by_name_of tools in
  observations ← execute_loop tools_by_name calls [];
  mret (format_tool_outputs observations calls).

(** [final_report_tools].  [hasattr(final_report, 'tool_calls')] holds of
    an assistant turn only, not of [None] or of a string. *)
Definition final_report_tools (state : AgentState) : M W Command :=
  match final_report state with
  | Some (ReportTurn final_report) =>
      match tool_calls final_report with
      | [] => mret {| goto := Some END; update := empty_update |}
      | _ :: _ =>
          tool_messages ← execute_tools (tool_calls final_report);
          mret {| goto := Some END;
                  update := {| u_messages := Some tool_messages;
                               u_research_brief := None;
                               u_notes := None;
                               u_final_report :=
                                 Some (ReportText (content final_report)) |} |}
      end
  | _ => mret {| goto := Some END; update := empty_update |}
  end.

(** ** Graphs

    A [StateGraph] under construction: its nodes by name, its plain edges
    and its conditional edges (a routing function with its path map). *)
Inductive NodeImpl : Type :=
| NodeFn (f : AgentState -> M W Command)
| NodeGraph (run : AgentState -> M W AgentState).

Record StateGraph : Type := mkStateGraph {
  g_nodes : gmap string NodeImpl;
  g_edges : list (string * string);
  g_branches : gmap string ((AgentState -> string) * list (string * string))
}.

Definition new_graph : StateGraph := mkStateGraph ∅ [] ∅.

Definition add_node (name : string) (impl : NodeImpl) (g : StateGraph) : StateGraph :=
  mkStateGraph (<[name := impl]> (g_nodes g)) (g_edges g) (g_branches g).

Definition add_edge (src dst : string) (g : StateGraph) : StateGraph :=
  mkStateGraph (g_nodes g) (g_edges g ++ [(src, dst)]) (g_branches g).

Definition add_conditional_edges (src : string) (path : AgentState -> string)
    (path_map : list (string * string)) (g : StateGraph) : StateGraph :=
  mkStateGraph (g_nodes g) (g_edges g) (<[src := (path, path_map)]> (g_branches g)).

Fixpoint assoc (k : string) (l : list (string * string)) : option string :=
  match l with
  | [] => None
  | (k', v) :: l' => if decide (k = k') then Some v else assoc k l'
  end.

Definition static_targets (g : StateGraph) (name : string) : list string :=
  map snd (filter (fun e => fst e = name) (g_edges g)).

(** The target of the conditional edge leaving [name], if it has one; a
    routing result outside the path map is a [KeyError]. *)
Definition branch_targets (g : StateGraph) (name : string) (st : AgentState)
    : Result (list string) :=
  match g_branches g !! name with
  | None => Ok []
  | Some (path, path_map) =>
      match assoc (path st) path_map with
      | Some dst => Ok [dst]
      | None => Raise (KeyError (path st))
      end
  end.

(** Where control goes after [name] ran: the [goto] of its [Command]
    together with its plain and conditional edges. *)
Definition successors (g : StateGraph) (name : string) (st : AgentState)
    (goto : option string) : Result (list string) :=
  match branch_targets g name st with
  | Raise e => Raise e
  | Ok bs => Ok (remove_dups (option_list goto ++ static_targets g name ++ bs))
  end.

(** What a compiled graph used as a node returns to the graph around it:
    every key of the state [sub] it ends in, as one update.  The messages it
    received from the parent state come back under the ids they had and so
    stand for themselves in the merge; the ones that count as new are those
    it added behind them. *)
Definition subgraph_output (parent sub : AgentState) : Update :=
  {| u_messages := Some (drop (length (messages parent)) (messages sub));
     u_research_brief := research_brief sub;
     u_notes := notes sub;
     u_final_report := final_report sub |}.

(** Running one node: a function node returns a [Command] whose update is
    merged into the state; a compiled graph used as a node runs on a state
    of its own that starts as the parent's, and what it ends in is merged
    into the parent's state as the update of that node. *)
Definition run_node (name : string) (impl : NodeImpl) (st : AgentState)
    : M W (AgentState * option string) :=
  _ ← emit (EvNode name);
  match impl with
  | NodeFn f =>
      cmd ← f st;
      _ ← emit (EvWrite name (update cmd));
      mret (apply_update st (update cmd), goto cmd)
  | NodeGraph run =>
      st' ← run st;
      _ ← emit (EvWrite name (subgraph_output st st'));
      mret (apply_update st (subgraph_output st st'), None)
  end.

(** The run loop.  [fuel] is the recursion limit of the graph; the graphs
    of this repository are chains, a step with several successors is not
    modelled and stops the run. *)
Fixpoint run_from (fuel : nat) (g : StateGraph) (cur : string) (st : AgentState)
    : M W AgentState :=
  if decide (cur = END) then mret st
  else match fuel with
       | O => raise GraphRecursionError
       | S fuel' =>
           match g_nodes g !! cur with
           | None => raise (KeyError cur)
           | Some impl =>
               r ← run_node cur impl st;
               match successors g cur (fst r) (snd r) with
               | Raise e => raise e
               | Ok [] => mret (fst r)
               | Ok [next] => run_from fuel' g next (fst r)
               | Ok (_ :: _ :: _) => raise (OtherException "fan-out")
               end
           end
       end.

Definition recursion_limit : nat := 25.

(** [builder.compile()]: the graph as a function run from [START]. *)
Definition compile (g : StateGraph) (st : AgentState) : M W AgentState :=
  match successors g START st None with
  | Raise e => raise e
  | Ok [first] => run_from recursion_limit g first st
  | Ok _ => raise (OtherException "entry point")
  end.

(** The report subgraph of research_report.py. *)
Definition final_report_builder : StateGraph :=
  add_edge "final_report_tools" END
    (add_edge START "final_report_generation"
       (add_node "final_report_tools" (NodeFn final_report_tools)
          (add_node "final_report_generation" (NodeFn final_report_generation)
             new_graph))).

Definition research_report : AgentState -> M W AgentState :=
  compile final_report_builder.

End Report.

(** ** agent.py *)

(** Modelled from the spec: the two stages whose modules
    ([local_research.research_scope], [local_research.research_supervisor])
    are not among the sources, taken by their write-sets.  Scoping returns a
    brief or none and appends turns to the conversation; supervising returns
    notes. *)
Record ScopeUpdate : Type := mkScopeUpdate {
  su_research_brief : option string;
  su_messages : list Message
}.

Record SupervisorUpdate : Type := mkSupervisorUpdate {
  sv_notes : list string
}.

Class Stages (W : Type) : Type := {
  research_scope : AgentState -> W -> W * Result ScopeUpdate;
  supervisor_agent : AgentState -> W -> W * Result SupervisorUpdate
}.

Section Agent.

Context {W : Type} {G : Gateways W} {St : Stages W}.

(** Python's truth value of [state.get("research_brief")]: [None] and the
    empty string are false. *)
Definition truthy (v : option string) : bool :=
  match v with
  | None => false
  | Some s => negb (String.eqb s "")
  end.

(** [route_after_scoping] *)
Definition route_after_scoping (state : AgentState) : string :=
  let research_brief := research_brief state in
  if truthy research_brief then "supervisor_subgraph" else "__end__".

Definition scope_update (u : ScopeUpdate) : Update :=
  mkUpdate (Some (su_messages u)) (su_research_brief u) None None.

Definition supervisor_update (u : SupervisorUpdate) : Update :=
  mkUpdate None None (Some (sv_notes u)) None.

Definition scope_node (st : AgentState) : M W Command :=
  u ← lift_world (research_scope st);
  mret {| goto := None; update := scope_update u |}.

Definition supervisor_node (st : AgentState) : M W Command :=
  u ← lift_world (supervisor_agent st);
  mret {| goto := None; update := supervisor_update u |}.

Definition deep_researcher_builder : StateGraph :=
  add_edge "report_subgraph" END
    (add_edge "supervisor_subgraph" "report_subgraph"
       (add_conditional_edges "scope_subgraph" route_after_scoping
          [("__end__", END); ("supervisor_subgraph", "supervisor_subgraph")]
          (add_edge START "scope_subgraph"
             (add_node "report_subgraph" (NodeGraph research_report)
                (add_node "supervisor_subgraph" (NodeFn supervisor_node)
                   (add_node "scope_subgraph" (NodeFn scope_node)
                      new_graph)))))).

(** [AgentInputState]: a run starts from the caller's messages alone. *)
Definition initial_state (input_messages : list Message) : AgentState :=
  mkAgentState input_messages None None None.

Definition agent : AgentState -> M W AgentState :=
  compile deep_researcher_builder.

End Agent.

(** ** The supervisor's fan-out and merge *)

Module Supervisor.

(** Modelled from the spec: the dispatch, barrier and merge of the
    supervisor stage; [local_research/research_supervisor.py] is not among
    the sources.  A research thread is one dispatched sub-task together
    with the notes it returns. *)
Record ResearchThread : Type := mkResearchThread {
  subTaskDescription : string;
  resultNotes : list string
}.

(** Modelled from the spec: the barrier of the supervisor stage keeps one
    slot per dispatched thread, in dispatch order, empty until that thread
    completes. *)
Abbreviation Slots := (list (option (list string))).

Definition dispatch (threads : list ResearchThread) : Slots :=
  replicate (length threads) None.

(** Modelled from the spec: thread number [i] (in dispatch order) completes
    and hands its notes to the barrier. *)
Definition complete (threads : list ResearchThread) (slots : Slots) (i : nat) : Slots :=
  match threads !! i with
  | Some t => <[i := Some (resultNotes t)]> slots
  | None => slots
  end.

(** Modelled from the spec: the threads complete in the order [schedule],
    a list of dispatch indices. *)
Definition run_schedule (threads : list ResearchThread) (schedule : list nat) : Slots :=
  foldl (complete threads) (dispatch threads) schedule.

Fixpoint all_complete (slots : Slots) : option (list (list string)) :=
  match slots with
  | [] => Some []
  | None :: _ => None
  | Some ns :: rest =>
      match all_complete rest with
      | Some nss => Some (ns :: nss)
      | None => None
      end
  end.

(** Modelled from the spec: the merge step of the supervisor stage, which
    waits for every thread and then concatenates the notes slot by slot. *)
Definition merge (slots : Slots) : option (list string) :=
  match all_complete slots with
  | Some nss => Some (concat nss)
  | None => None
  end.

Definition supervise_notes (threads : list ResearchThread) (schedule : list nat)
    : option (list string) :=
  merge (run_schedule threads schedule).

End Supervisor.

(** ** model_config.py *)

Module ModelConfig.

(** [**kwargs] *)
Definition Kwargs : Type := list (string * string).

(** The environment and the constructors of the libraries: [os.getenv],
    [langchain.chat_models.init_chat_model], [ChatOpenAI(base_url=, model=,
    api_key=, **kwargs)], [ChatOllama(base_url=, model=, **kwargs)] when
    [langchain_ollama] can be imported, and the builtin [int] ([None] is
    its [ValueError]). *)
Class Providers (Model : Type) : Type := {
  getenv : string -> option string;
  init_chat_model : string -> Kwargs -> Result Model;
  ChatOpenAI : string -> string -> string -> Kwargs -> Result Model;
  langchain_ollama : option (string -> string -> Kwargs -> Result Model);
  py_int : string -> option Z
}.

(** [s.split(sep, 1)] when [sep] occurs in [s]. *)
Definition split_once (sep s : string) : option (string * string) :=
  match String.index 0 sep s with
  | Some i =>
      Some (String.substring 0 i s,
            String.substring (i + String.length sep)
              (String.length s - (i + String.length sep)) s)
  | None => None
  end.

(** The position of the last [c] in [s]. *)
Fixpoint rfind_char (c : ascii) (s : string) : option nat :=
  match s with
  | EmptyString => None
  | String c' s' =>
      match rfind_char c s' with
      | Some i => Some (S i)
      | None => if Ascii.eqb c c' then Some 0 else None
      end
  end.

(** [s.rsplit(":", 1)] when [":"] occurs in [s]. *)
Definition rsplit_colon (s : string) : option (string * string) :=
  match rfind_char ":"%char s with
  | Some i =>
      Some (String.substring 0 i s,
            String.substring (i + 1) (String.length s - (i + 1)) s)
  | None => None
  end.

(** [parse_model_string] *)
Definition parse_model_string (model_string : string) : Result (string * string) :=
  match split_once "://" model_string with
  | Some (provider, model_info) => Ok (provider, model_info)
  | None =>
      match split_once ":" model_string with
      | Some (a, b) => Ok (a, b)
      | None =>
          Raise (ValueError ("Invalid model string format: " +:+ model_string
                   +:+ ". Expected 'provider:model' or 'provider://host:port/model'"))
      end
  end.

Section WithProviders.

Context {Model : Type} {P : Providers Model}.

(** [create_local_chat_model] *)
Definition create_local_chat_model (provider model_info : string)
    (kwargs : Kwargs) : Result Model :=
  match split_once "/" model_info with
  | None => Raise (ValueError ("Local model info must include model name: "
                               +:+ model_info))
  | Some (host_port, model_name) =>
      match rsplit_colon host_port with
      | None => Raise (ValueError ("Local model info must include port: "
                                   +:+ model_info))
      | Some (host, port) =>
          match py_int port with
          | None => Raise (ValueError ("Invalid port number: " +:+ port))
          | Some port =>
              if String.eqb provider "lmstudio" then
                ChatOpenAI ("http://" +:+ host +:+ ":" +:+ pretty port +:+ "/v1")
                  model_name "lm-studio" kwargs
              else if String.eqb provider "ollama" then
                match langchain_ollama with
                | Some ChatOllama =>
                    match ChatOllama ("http://" +:+ host +:+ ":" +:+ pretty port)
                            model_name kwargs with
                    | Raise (ImportError _) =>
                        ChatOpenAI ("http://" +:+ host +:+ ":" +:+ pretty port +:+ "/v1")
                          model_name "ollama" kwargs
                    | r => r
                    end
                | None =>
                    ChatOpenAI ("http://" +:+ host +:+ ":" +:+ pretty port +:+ "/v1")
                      model_name "ollama" kwargs
                end
              else Raise (ValueError ("Unsupported local provider: " +:+ provider))
          end
      end
  end.

(** The body of both [try] blocks of [init_chat_model_from_env]: parse
    the string, build a local model for the providers ["lmstudio"] and
    ["ollama"], hand any other string to [init_chat_model]. *)
Definition try_init_model (model_string : string) (kwargs : Kwargs) : Result Model :=
  match parse_model_string model_string with
  | Raise e => Raise e
  | Ok (provider, model_info) =>
      if String.eqb provider "lmstudio" || String.eqb provider "ollama"
      then create_local_chat_model provider model_info kwargs
      else init_chat_model model_string kwargs
  end.

(** [init_chat_model_from_env]; every [PyExn] is an [Exception], so both
    [except Exception] clauses catch whatever is raised. *)
Definition init_chat_model_from_env (env_var fallback_model : string)
    (kwargs : Kwargs) : Result Model :=
  let model_string := default fallback_model (getenv env_var) in
  match try_init_model model_string kwargs with
  | Ok model => Ok model
  | Raise e =>
      match try_init_model fallback_model kwargs with
      | Ok model => Ok model
      | Raise fallback_error => init_chat_model "openai:gpt-4o" kwargs
      end
  end.

Definition get_report_model (kwargs : Kwargs) : Result Model :=
  init_chat_model_from_env "REPORT_MODEL" "openai:gpt-4o" kwargs.

Definition get_research_model (kwargs : Kwargs) : Result Model :=
  init_chat_model_from_env "RESEARCH_MODEL" "anthropic:claude-3-5-sonnet-20241022" kwargs.

Definition get_summarization_model (kwargs : Kwargs) : Result Model :=
  init_chat_model_from_env "SUMMARIZATION_MODEL" "openai:gpt-4o-mini" kwargs.

Definition get_compress_model (kwargs : Kwargs) : Result Model :=
  init_chat_model_from_env "COMPRESS_MODEL" "openai:gpt-4o" kwargs.

Definition get_supervisor_model (kwargs : Kwargs) : Result Model :=
  init_chat_model_from_env "SUPERVISOR_MODEL" "anthropic:claude-3-5-sonnet-20241022" kwargs.

Definition get_scope_model (kwargs : Kwargs) : Result Model :=
  init_chat_model_from_env "SCOPE_MODEL" "openai:gpt-4o" kwargs.

End WithProviders.

End ModelConfig.

(** ** Reading the event log *)

(** The nodes that ran, in order. *)
Definition node_trace (evs : list Event) : list string :=
  flat_map (fun ev => match ev with EvNode n => [n] | _ => [] end) evs.

(** The tool invocations, in order, by tool name and arguments. *)
Definition tool_trace (evs : list Event) : list (string * Args) :=
  flat_map (fun ev => match ev with EvTool t a => [(tool_name t, a)] | _ => [] end) evs.

(** The model invocations, in order. *)
Definition model_calls (evs : list Event) : list (list Tool * list Message) :=
  flat_map (fun ev => match ev with EvModel ts p => [(ts, p)] | _ => [] end) evs.

(** Every call that leaves the process: tool-list fetches, model and tool
    invocations. *)
Definition gateway_calls (evs : list Event) : list Event :=
  flat_map (fun ev => match ev with
                      | EvGetTools | EvModel _ _ | EvTool _ _ => [ev]
                      | _ => []
                      end) evs.

(** The writes of the key ["final_report"], in order, with the writing node. *)
Definition final_report_writes (evs : list Event) : list (string * ReportValue) :=
  flat_map (fun ev => match ev with
                      | EvWrite n u =>
                          match u_final_report u with
                          | Some v => [(n, v)]
                          | None => []
                          end
                      | _ => []
                      end) evs.

(** The name and arguments a tool call asks for. *)
Definition call_sig (tc : ToolCall) : string * Args := (tc_name tc, tc_args tc).

(** The events of a sequence of tool invocations. *)
Definition tool_events (done : list (Tool * Args)) : list Event :=
  map (fun p => EvTool (fst p) (snd p)) done.

(** The text of the report held under ["final_report"]. *)
Definition report_body (v : ReportValue) : string :=
  match v with
  | ReportTurn m => content m
  | ReportText s => s
  end.

(** ** Descriptions of runs

    The definitions below are not code of the repository: they name the
    environments, updates and event sequences that the statements about the
    report subgraph and the top-level graph speak of. *)

Section Runs.

Context {W : Type} {G : Gateways W}.

(** What [get_mcp_client] logs: the creation of the client, once. *)
Definition client_events (env : Env W) : list Event :=
if client_created env then [] else [EvNewClient].

(** The environment once the client exists and the tool list was fetched. *)
Definition after_fetch (env : Env W) : Env W :=
mkEnv (fst (client_get_tools (world env))) true
  (events env ++ client_events env ++ [EvGetTools]).

Definition logged (ev : Event) (env : Env W) : Env W :=
mkEnv (world env) (client_created env) (events env ++ [ev]).

(** The update of [final_report_generation] for the turn the model returned. *)
Definition generation_update (turn : AIMessage) : Update :=
{| u_messages := Some [TextMessage ("Here is the final report: " +:+ content turn)];
   u_research_brief := None;
   u_notes := None;
   u_final_report := Some (ReportTurn turn) |}.

(** The update of [final_report_tools] after its tool calls ran. *)
Definition tools_update (turn : AIMessage) (tool_messages : list Message) : Update :=
{| u_messages := Some tool_messages;
   u_research_brief := None;
   u_notes := None;
   u_final_report := Some (ReportText (content turn)) |}.

(** The conversation [final_report_generation] sends to the model. *)
Definition report_prompt (st : AgentState) (w : W) : list Message :=
[TextMessage (final_report_generator_prompt (default "" (research_brief st))
                (String.concat newline (default [] (notes st))) (get_today_str w))].

(** The report subgraph as the chain generation, tools, end. *)
Definition report_chain (st : AgentState) : M W AgentState :=
_ ← emit (EvNode "final_report_generation");
cmd ← final_report_generation st;
_ ← emit (EvWrite "final_report_generation" (update cmd));
_ ← emit (EvNode "final_report_tools");
cmd' ← final_report_tools (apply_update st (update cmd));
_ ← emit (EvWrite "final_report_tools" (update cmd'));
mret (apply_update (apply_update st (update cmd)) (update cmd')).

(** The events up to the start of the tools node when generation returned
  [turn]. *)
Definition generation_events (env : Env W) (tools : list Tool)
  (prompt : list Message) (turn : AIMessage) : list Event :=
[EvNode "final_report_generation"] ++ client_events env ++
[EvGetTools; EvModel tools prompt;
 EvWrite "final_report_generation" (generation_update turn);
 EvNode "final_report_tools"].

(** Every way a run of the report subgraph can go: the events it adds to the
  log and what it returns. *)
Inductive report_run (st : AgentState) (env : Env W)
  : list Event -> Result AgentState -> Prop :=
| run_fetch_raises e :
  report_run st env
    ([EvNode "final_report_generation"] ++ client_events env ++ [EvGetTools])
    (Raise e)
| run_model_raises tools prompt e :
  report_run st env
    ([EvNode "final_report_generation"] ++ client_events env ++
     [EvGetTools; EvModel tools prompt])
    (Raise e)
| run_no_tool_calls tools prompt w turn :
  snd (model_ainvoke tools prompt w) = Ok turn ->
  tool_calls turn = [] ->
  report_run st env
    (generation_events env tools prompt turn ++
     [EvWrite "final_report_tools" empty_update])
    (Ok (apply_update (apply_update st (generation_update turn)) empty_update))
| run_tools_raise tools prompt w turn done e :
  snd (model_ainvoke tools prompt w) = Ok turn ->
  tool_calls turn <> [] ->
  tool_trace (tool_events done) = map call_sig (take (length done) (tool_calls turn)) ->
  report_run st env
    (generation_events env tools prompt turn ++ [EvGetTools] ++ tool_events done)
    (Raise e)
| run_tools_done tools prompt w turn done msgs :
  snd (model_ainvoke tools prompt w) = Ok turn ->
  tool_calls turn <> [] ->
  tool_trace (tool_events done) = map call_sig (tool_calls turn) ->
  length msgs = length (tool_calls turn) ->
  Forall2 (fun tc m => exists o, m = ToolMessage o (tc_name tc) (tc_id tc))
    (tool_calls turn) msgs ->
  report_run st env
    (generation_events env tools prompt turn ++ [EvGetTools] ++ tool_events done ++
     [EvWrite "final_report_tools" (tools_update turn msgs)])
    (Ok (apply_update (apply_update st (generation_update turn))
           (tools_update turn msgs))).

Context {St : Stages W}.

(** The top-level graph as the chain scope, then either the end or
  supervisor and report. *)
Definition agent_chain (st : AgentState) : M W AgentState :=
_ ← emit (EvNode "scope_subgraph");
cmd ← scope_node st;
_ ← emit (EvWrite "scope_subgraph" (update cmd));
if truthy (research_brief (apply_update st (update cmd))) then
  _ ← emit (EvNode "supervisor_subgraph");
  cmd' ← supervisor_node (apply_update st (update cmd));
  _ ← emit (EvWrite "supervisor_subgraph" (update cmd'));
  _ ← emit (EvNode "report_subgraph");
  sub ← research_report (apply_update (apply_update st (update cmd)) (update cmd'));
  _ ← emit (EvWrite "report_subgraph"
              (subgraph_output
                 (apply_update (apply_update st (update cmd)) (update cmd')) sub));
  mret (apply_update (apply_update (apply_update st (update cmd)) (update cmd'))
          (subgraph_output
             (apply_update (apply_update st (update cmd)) (update cmd')) sub))
else mret (apply_update st (update cmd)).

End Runs.

(** ** A small world for the examples

    The world counts the calls that reached it.  The MCP server offers
    [read_file] and [write_file]; writing succeeds, reading raises; the model
    answers with one fixed turn. *)

Module Demo.

Definition read_file : Tool := mkTool "read_file" "Read the contents of a file".
Definition write_file : Tool := mkTool "write_file" "Create or overwrite a file".

Definition gateways (turn : AIMessage) : Gateways nat :=
{| client_get_tools := fun w => (S w, Ok [read_file; write_file]);
   model_ainvoke := fun _ _ w => (S w, Ok turn);
   tool_ainvoke := fun t _ w =>
     if String.eqb (tool_name t) "write_file"
     then (S w, Ok "Successfully wrote the file")
     else (S w, Raise (ToolException "ENOENT: no such file"));
   final_report_generator_prompt := fun brief findings date =>
     brief +:+ " | " +:+ findings +:+ " | " +:+ date;
   get_today_str := fun _ => "Tue Nov 3, 2026" |}.

(** Scoping returns [brief] and one turn; the supervisor returns two notes. *)
Definition stages (brief : option string) : Stages nat :=
{| research_scope := fun _ w =>
     (S w, Ok (mkScopeUpdate brief [TextMessage "scoped"]));
   supervisor_agent := fun _ w =>
     (S w, Ok (mkSupervisorUpdate ["note A"; "note B"])) |}.

Definition env0 : Env nat := mkEnv 0 false [].

Definition save_call : ToolCall :=
mkToolCall "write_file" [("path", "report.md")] "call_1".
Definition read_call : ToolCall :=
mkToolCall "read_file" [("path", "missing.md")] "call_2".
Definition unknown_call : ToolCall :=
mkToolCall "delete_file" [("path", "report.md")] "call_2".
Definition copy_call : ToolCall :=
mkToolCall "write_file" [("path", "copy.md")] "call_3".

Definition turn_plain : AIMessage := mkAIMessage "REPORT" [].
Definition turn_saved : AIMessage := mkAIMessage "REPORT" [save_call; copy_call].
Definition turn_read_fails : AIMessage :=
mkAIMessage "REPORT" [save_call; read_call; copy_call].
Definition turn_unknown : AIMessage :=
mkAIMessage "REPORT" [save_call; unknown_call; copy_call].

(** A state as the supervisor leaves it. *)
Definition researched : AgentState :=
mkAgentState [TextMessage "Compare two products"] (Some "brief")
  (Some ["note A"; "note B"]) None.

(** The state in which the tools node finds [turn]. *)
Definition generated (turn : AIMessage) : AgentState :=
apply_update researched (generation_update turn).

(** Providers for model_config.py: only ["openai:gpt-4o"] can be built, and
  the variable [REPORT_MODEL] holds a string without a colon. *)
Definition providers : ModelConfig.Providers string :=
{| ModelConfig.getenv := fun name =>
     if String.eqb name "REPORT_MODEL" then Some "gpt4" else None;
   ModelConfig.init_chat_model := fun s _ =>
     if String.eqb s "openai:gpt-4o" then Ok "ChatOpenAI(gpt-4o)"
     else Raise (ValueError ("Unable to infer model provider for " +:+ s));
   ModelConfig.ChatOpenAI := fun base_url model _ _ =>
     Ok ("ChatOpenAI(" +:+ model +:+ " at " +:+ base_url +:+ ")");
   ModelConfig.langchain_ollama := None;
   ModelConfig.py_int := fun s =>
     if String.eqb s "1234" then Some 1234%Z
     else if String.eqb s "11434" then Some 11434%Z
     else None |}.

(** The environment of the tools node once the first call of the demo turns,
    [save_call], ran. *)
Definition env_after_save : Env nat :=
  mkEnv 2 true [EvNewClient; EvGetTools; EvTool write_file [("path", "report.md")]].

(** Three dispatched research threads with their notes. *)
Definition three_threads : list Supervisor.ResearchThread :=
  [Supervisor.mkResearchThread "T1" ["a1"; "a2"];
   Supervisor.mkResearchThread "T2" ["b1"];
   Supervisor.mkResearchThread "T3" ["c1"; "c2"]].

End Demo.


(** ** More readings of the log, and of strings *)

(** The creations of the MCP client in a log. *)
Definition client_creations (evs : list Event) : list unit :=
  flat_map (fun ev => match ev with EvNewClient => [tt] | _ => [] end) evs.

(** The fetches of the tool list in a log. *)
Definition tool_list_fetches (evs : list Event) : list unit :=
  flat_map (fun ev => match ev with EvGetTools => [tt] | _ => [] end) evs.

(** Python's [sub in s]. *)
Definition contains (sub s : string) : bool :=
  match String.index 0 sub s with
  | Some _ => true
  | None => false
  end.

(** ** evaluation_supervisor.py *)

Module Evaluation.

(** The dict [{"key": .., "score": ..}] an evaluator returns. *)
Record Feedback : Type := mkFeedback {
  key : string;
  score : bool
}.

(** [evaluate_parallelism], on the list held under
    [outputs["output"].update["supervisor_messages"]] and the number held
    under [reference_outputs["num_expected_threads"]].  Indexing an empty
    list with [-1] raises [IndexError]; only an assistant turn has the
    attribute [tool_calls]. *)
Definition evaluate_parallelism (supervisor_messages : list Message)
    (num_expected_threads : Z) : Result Feedback :=
  match last supervisor_messages with
  | None => Raise (OtherException "IndexError: list index out of range")
  | Some (AssistantMessage m) =>
      Ok {| key := "correct_next_step";
            score := Z.eqb (Z.of_nat (length (tool_calls m))) num_expected_threads |}
  | Some _ => Raise (OtherException "AttributeError: tool_calls")
  end.

End Evaluation.

(** ** mcp_list_example.py *)

Module McpListExample.

(** The description shown in a row of the table:
    [d[:77] + "..." if len(d) > 80 else d]. *)
Definition row_description (description : string) : string :=
  if Nat.ltb 80 (String.length description)
  then String.substring 0 77 description +:+ "..."
  else description.

(** The rows added to the table, one per tool, in the order of the list. *)
Definition table_rows (tools : list Tool) : list (string * string) :=
  map (fun tool => (tool_name tool, row_description (tool_description tool))) tools.

End McpListExample.

(** ** Worlds in which something fails *)

Module Outage.

(** The MCP server cannot be reached. *)
Definition tools_down : Gateways nat :=
  {| client_get_tools := fun w => (S w, Raise (OtherException "MCP server unreachable"));
     model_ainvoke := fun _ _ w => (S w, Ok Demo.turn_plain);
     tool_ainvoke := fun _ _ w => (S w, Ok "unused");
     final_report_generator_prompt := fun brief findings date =>
       brief +:+ " | " +:+ findings +:+ " | " +:+ date;
     get_today_str := fun _ => "Tue Nov 3, 2026" |}.

(** The model backend raises. *)
Definition model_down : Gateways nat :=
  {| client_get_tools := fun w => (S w, Ok [Demo.read_file; Demo.write_file]);
     model_ainvoke := fun _ _ w => (S w, Raise (OtherException "model backend error"));
     tool_ainvoke := fun _ _ w => (S w, Ok "unused");
     final_report_generator_prompt := fun brief findings date =>
       brief +:+ " | " +:+ findings +:+ " | " +:+ date;
     get_today_str := fun _ => "Tue Nov 3, 2026" |}.

(** Scoping raises. *)
Definition scope_down : Stages nat :=
  {| research_scope := fun _ w => (S w, Raise (OtherException "scoping failed"));
     supervisor_agent := fun _ w => (S w, Ok (mkSupervisorUpdate [])) |}.

(** Scoping returns a brief, the supervisor raises. *)
Definition supervisor_down : Stages nat :=
  {| research_scope := fun _ w =>
       (S w, Ok (mkScopeUpdate (Some "brief") [TextMessage "scoped"]));
     supervisor_agent := fun _ w => (S w, Raise (OtherException "all threads failed")) |}.

End Outage.

(** * Proofs *)

Ltac munfold :=
  unfold mbind, M_bind, mret, M_ret, emit, raise, lift_world, read_world,
    get_tools in *.

Section EventLemmas.
Lemma node_trace_app a b : node_trace (a ++ b) = node_trace a ++ node_trace b.
Proof. apply flat_map_app. Qed.
Lemma tool_trace_app a b : tool_trace (a ++ b) = tool_trace a ++ tool_trace b.
Proof. apply flat_map_app. Qed.
Lemma model_calls_app a b : model_calls (a ++ b) = model_calls a ++ model_calls b.
Proof. apply flat_map_app. Qed.
Lemma gateway_calls_app a b : gateway_calls (a ++ b) = gateway_calls a ++ gateway_calls b.
Proof. apply flat_map_app. Qed.
Lemma final_report_writes_app a b :
  final_report_writes (a ++ b) = final_report_writes a ++ final_report_writes b.
Proof. apply flat_map_app. Qed.

Lemma node_trace_tool_events d : node_trace (tool_events d) = [].
Proof. induction d; simpl; auto. Qed.
Lemma model_calls_tool_events d : model_calls (tool_events d) = [].
Proof. induction d; simpl; auto. Qed.
Lemma final_report_writes_tool_events d : final_report_writes (tool_events d) = [].
Proof. induction d; simpl; auto. Qed.
Lemma tool_trace_tool_events d :
  tool_trace (tool_events d) = map (fun p => (tool_name (fst p), snd p)) d.
Proof. induction d; simpl; congruence. Qed.
End EventLemmas.

Create Rewrite HintDb evlog.
#[export] Hint Rewrite node_trace_app tool_trace_app model_calls_app gateway_calls_app
  final_report_writes_app node_trace_tool_events model_calls_tool_events
  final_report_writes_tool_events tool_trace_tool_events : evlog.

Section ReportProofs.
Context {W : Type} {G : Gateways W}.

Lemma tools_by_name_of_name (tools : list Tool) (n : string) (t : Tool) :
  tools_by_name_of tools !! n = Some t -> tool_name t = n.
Proof.
  unfold tools_by_name_of.
  assert (H : forall (m : gmap string Tool),
             (forall n t, m !! n = Some t -> tool_name t = n) ->
             forall n t, foldl (fun m tool => <[tool_name tool := tool]> m) m tools !! n = Some t ->
                         tool_name t = n).
  { induction tools as [|a tools IH]; intros m Hm n' t'; simpl.
    - apply Hm.
    - apply IH. intros n0 t0. rewrite lookup_insert.
      case_decide; [intros [= <-]; done | apply Hm]. }
  apply H. intros n0 t0. rewrite lookup_empty. discriminate.
Qed.

Lemma execute_loop_app (tbn : gmap string Tool) (pre rest : list ToolCall)
    (obs : list string) (env : Env W) :
  execute_loop tbn (pre ++ rest) obs env =
  match execute_loop tbn pre obs env with
  | (env', Ok obs') => execute_loop tbn rest obs' env'
  | (env', Raise e) => (env', Raise e)
  end.
Proof.
  revert obs env. induction pre as [|tc pre IH]; intros obs env; simpl.
  - reflexivity.
  - destruct (tbn !! tc_name tc) as [tool|]; [|reflexivity].
    munfold. simpl.
    destruct (snd (tool_ainvoke tool (tc_args tc) (world env))) as [o|e]; [|reflexivity].
    apply IH.
Qed.

Lemma execute_loop_spec (tbn : gmap string Tool) (calls : list ToolCall)
    (obs : list string) (env : Env W) :
  exists done : list (Tool * Args),
    events (fst (execute_loop tbn calls obs env)) = events env ++ tool_events done /\
    client_created (fst (execute_loop tbn calls obs env)) = client_created env /\
    Forall2 (fun p tc => tbn !! tc_name tc = Some (fst p) /\ snd p = tc_args tc)
      done (take (length done) calls) /\
    (forall obs', snd (execute_loop tbn calls obs env) = Ok obs' ->
       length done = length calls /\
       exists os, obs' = obs ++ os /\ length os = length calls).
Proof.
  revert obs env. induction calls as [|tc calls IH]; intros obs env; simpl.
  - exists []. simpl. rewrite app_nil_r. split; [done|]. split; [done|].
    split; [constructor|].
    intros obs1 [= <-]. split; [done|]. exists []. by rewrite app_nil_r.
  - destruct (tbn !! tc_name tc) as [tool|] eqn:Hl.
    + munfold. simpl.
      destruct (snd (tool_ainvoke tool (tc_args tc) (world env))) as [o|e] eqn:Ho.
      * match goal with |- context [execute_loop tbn calls ?o ?e] =>
          destruct (IH o e) as (done & Hev & Hcl & Hf & Hok) end.
        exists ((tool, tc_args tc) :: done). simpl in *.
        rewrite Hev, Hcl, <- app_assoc. simpl.
        split; [done|]. split; [done|]. split; [by constructor|].
        intros obs1 Hr. destruct (Hok _ Hr) as (Hlen & os & -> & Hlo).
        split; [lia|]. exists (o :: os). rewrite <- app_assoc. simpl. split; [done|lia].
      * exists [(tool, tc_args tc)]. simpl.
        split; [done|]. split; [done|]. split; [by repeat constructor|]. discriminate.
    + exists []. simpl. rewrite app_nil_r.
      split; [done|]. split; [done|]. split; [constructor|]. discriminate.
Qed.


Lemma get_mcp_client_spec (env : Env W) :
  get_mcp_client env =
  (mkEnv (world env) true (events env ++ client_events env), Ok tt).
Proof.
  unfold get_mcp_client, client_events. destruct env as [w [] evs]; simpl.
  - by rewrite app_nil_r.
  - reflexivity.
Qed.

Lemma run_from_step (fuel : nat) (g : @StateGraph W) (cur : string) (st : AgentState)
    (env : Env W) :
  cur <> END ->
  run_from (S fuel) g cur st env =
  match g_nodes g !! cur return M W AgentState with
  | None => raise (KeyError cur)
  | Some impl =>
      r ← run_node cur impl st;
      match successors g cur (fst r) (snd r) return M W AgentState with
      | Raise e => raise e
      | Ok [] => mret (fst r)
      | Ok [next] => run_from fuel g next (fst r)
      | Ok (_ :: _ :: _) => raise (OtherException "fan-out")
      end
  end env.
Proof. intros H. simpl. by destruct (decide (cur = END)). Qed.

#[local] Arguments run_from : simpl never.

Ltac run_step :=
  match goal with
  | |- context [run_from (S ?f) ?g ?c ?s ?e] =>
      rewrite (run_from_step f g c s e) by (unfold END; discriminate)
  end.

Lemma run_from_end (fuel : nat) (g : @StateGraph W) (st : AgentState) :
  run_from fuel g END st = mret st.
Proof. destruct fuel; reflexivity. Qed.

Lemma final_report_generation_goto (st : AgentState) (env : Env W) (cmd : Command) :
  snd (final_report_generation st env) = Ok cmd ->
  goto cmd = Some "final_report_tools".
Proof.
  unfold final_report_generation. munfold. rewrite get_mcp_client_spec. simpl.
  destruct (snd (client_get_tools (world env))) as [tools|e]; simpl; [|discriminate].
  match goal with |- context [snd (model_ainvoke ?a ?b ?c)] =>
    destruct (snd (model_ainvoke a b c)) as [turn|e] end; simpl; [|discriminate].
  by intros [= <-].
Qed.

Lemma final_report_tools_goto (st : AgentState) (env : Env W) (cmd : Command) :
  snd (final_report_tools st env) = Ok cmd -> goto cmd = Some END.
Proof.
  unfold final_report_tools.
  destruct (final_report st) as [[turn|s]|]; try (by intros [= <-]).
  destruct (tool_calls turn) as [|tc calls]; [by intros [= <-]|].
  munfold.
  destruct (execute_tools (tc :: calls) env) as [env' [msgs|e]]; simpl; [|discriminate].
  by intros [= <-].
Qed.

Lemma research_report_chain (st : AgentState) (env : Env W) :
  research_report st env = report_chain st env.
Proof.
  unfold research_report, compile, report_chain.
  change (successors final_report_builder START st None) with
    (Ok ["final_report_generation"] : Result (list string)).
  unfold recursion_limit. cbv beta iota.
  run_step.
  change (g_nodes final_report_builder !! "final_report_generation")
    with (Some (NodeFn final_report_generation)).
  unfold run_node. munfold. simpl.
  match goal with |- context [final_report_generation st ?e] =>
    pose proof (final_report_generation_goto st e) as Hg;
    destruct (final_report_generation st e) as [env1 [cmd|e1]] end; [|reflexivity].
  simpl in *. rewrite (Hg _ eq_refl).
  change (successors final_report_builder "final_report_generation" ?s (Some "final_report_tools"))
    with (Ok ["final_report_tools"] : Result (list string)).
  cbv beta iota. run_step.
  change (g_nodes final_report_builder !! "final_report_tools")
    with (Some (NodeFn final_report_tools)).
  unfold run_node. munfold. simpl.
  match goal with |- context [final_report_tools ?s ?e] =>
    pose proof (final_report_tools_goto s e) as Ht;
    destruct (final_report_tools s e) as [env2 [cmd2|e2]] end; [|reflexivity].
  simpl in *. rewrite (Ht _ eq_refl).
  change (successors final_report_builder "final_report_tools" ?s (Some END))
    with (Ok [END] : Result (list string)).
  cbv beta iota. by rewrite run_from_end.
Qed.


Lemma execute_tools_unfold (calls : list ToolCall) (env : Env W) :
  execute_tools calls env =
  let env1 := after_fetch env in
  match snd (client_get_tools (world env)) with
  | Raise e => (env1, Raise e)
  | Ok tools =>
      match execute_loop (tools_by_name_of tools) calls [] env1 with
      | (env2, Ok obs) => (env2, Ok (format_tool_outputs obs calls))
      | (env2, Raise e) => (env2, Raise e)
      end
  end.
Proof.
  unfold execute_tools. munfold. rewrite get_mcp_client_spec. simpl.
  rewrite <- app_assoc.
  destruct (snd (client_get_tools (world env))) as [tools|e]; [|reflexivity].
  destruct (execute_loop _ _ _ _) as [env2 [obs|e]]; reflexivity.
Qed.

Lemma final_report_tools_unfold (st : AgentState) (env : Env W) (turn : AIMessage) :
  final_report st = Some (ReportTurn turn) ->
  tool_calls turn <> [] ->
  final_report_tools st env =
  match execute_tools (tool_calls turn) env with
  | (env', Ok msgs) =>
      (env', Ok {| goto := Some END; update := tools_update turn msgs |})
  | (env', Raise e) => (env', Raise e)
  end.
Proof.
  intros Hfr Hne. unfold final_report_tools. rewrite Hfr.
  destruct (tool_calls turn) as [|tc calls]; [done|].
  munfold. destruct (execute_tools _ _) as [env' [msgs|e]]; reflexivity.
Qed.

Lemma format_tool_outputs_spec (calls : list ToolCall) (obs : list string) :
  length obs = length calls ->
  length (format_tool_outputs obs calls) = length calls /\
  Forall2 (fun tc m => exists o, m = ToolMessage o (tc_name tc) (tc_id tc))
    calls (format_tool_outputs obs calls).
Proof.
  unfold format_tool_outputs. revert obs.
  induction calls as [|tc calls IH]; intros [|o obs] Hlen; simpl in *; try lia.
  - split; [done|constructor].
  - destruct (IH obs ltac:(lia)) as [Hl Hf]. split; [lia|].
    constructor; [by exists o|done].
Qed.

Lemma done_sigs (tbn : gmap string Tool) (done : list (Tool * Args))
    (calls : list ToolCall) :
  (forall n t, tbn !! n = Some t -> tool_name t = n) ->
  Forall2 (fun p tc => tbn !! tc_name tc = Some (fst p) /\ snd p = tc_args tc)
    done calls ->
  map (fun p => (tool_name (fst p), snd p)) done = map call_sig calls.
Proof.
  intros Hn Hf. induction Hf as [|p tc done calls [Hl Ha] _ IH]; simpl; [done|].
  rewrite IH. unfold call_sig. by rewrite (Hn _ _ Hl), Ha.
Qed.

(** What [execute_tools] logs and returns. *)
Lemma execute_tools_spec (calls : list ToolCall) (env : Env W) :
  exists done : list (Tool * Args),
    events (fst (execute_tools calls env)) =
      events env ++ client_events env ++ [EvGetTools] ++ tool_events done /\
    tool_trace (tool_events done) = map call_sig (take (length done) calls) /\
    (forall msgs, snd (execute_tools calls env) = Ok msgs ->
       length done = length calls /\
       length msgs = length calls /\
       Forall2 (fun tc m => exists o, m = ToolMessage o (tc_name tc) (tc_id tc))
         calls msgs).
Proof.
  rewrite execute_tools_unfold. cbv zeta.
  destruct (snd (client_get_tools (world env))) as [tools|e].
  - match goal with |- context [execute_loop ?t ?c ?o ?e] =>
      destruct (execute_loop_spec t c o e) as (done & Hev & _ & Hf & Hok);
      destruct (execute_loop t c o e) as [env2 [obs|e2]] end; simpl in *.
    + exists done. rewrite Hev, <- !app_assoc. split; [done|].
      rewrite tool_trace_tool_events.
      split; [eapply done_sigs; [apply tools_by_name_of_name|done]|].
      intros msgs [= <-]. destruct (Hok _ eq_refl) as (Hl & os & -> & Hlo).
      split; [done|]. by apply format_tool_outputs_spec.
    + exists done. rewrite Hev, <- !app_assoc. split; [done|].
      rewrite tool_trace_tool_events.
      split; [eapply done_sigs; [apply tools_by_name_of_name|done]|]. discriminate.
  - exists []. simpl. split; [done|]. split; [done|]. discriminate.
Qed.


Lemma final_report_generation_unfold (st : AgentState) (env : Env W) :
  final_report_generation st env =
  let prompt := report_prompt st (world env) in
  let env1 := after_fetch env in
  match snd (client_get_tools (world env)) with
  | Raise e => (env1, Raise e)
  | Ok tools =>
      let env2 := mkEnv (fst (model_ainvoke tools prompt (world env1))) true
                    (events env1 ++ [EvModel tools prompt]) in
      match snd (model_ainvoke tools prompt (world env1)) with
      | Raise e => (env2, Raise e)
      | Ok turn => (env2, Ok {| goto := Some "final_report_tools";
                                update := generation_update turn |})
      end
  end.
Proof.
  unfold final_report_generation. munfold. rewrite get_mcp_client_spec. simpl.
  unfold after_fetch. rewrite <- app_assoc.
  destruct (snd (client_get_tools (world env))) as [tools|e]; [|reflexivity].
  simpl. destruct (snd (model_ainvoke _ _ _)) as [turn|e]; reflexivity.
Qed.

Ltac events_eq :=
  unfold generation_events, client_events; simpl;
  repeat (rewrite <- app_assoc; simpl); reflexivity.

Lemma research_report_run (st : AgentState) (env : Env W) :
  exists new : list Event,
    events (fst (research_report st env)) = events env ++ new /\
    report_run st env new (snd (research_report st env)).
Proof.
  rewrite research_report_chain. unfold report_chain. munfold. simpl.
  rewrite final_report_generation_unfold. cbv zeta. simpl.
  destruct (snd (client_get_tools (world env))) as [tools|e] eqn:Hfetch; simpl.
  2:{ eexists. split; [|apply (run_fetch_raises st env e)]. events_eq. }
  match goal with |- context [snd (model_ainvoke ?t ?p ?w)] =>
    destruct (snd (model_ainvoke t p w)) as [turn|e] eqn:Hmodel end; simpl.
  2:{ eexists. split; [|apply (run_model_raises st env tools (report_prompt st (world env)) e)]. events_eq. }
  destruct (tool_calls turn) as [|tc calls] eqn:Hcalls.
  - unfold final_report_tools. simpl. rewrite Hcalls. simpl.
    eexists. split; [|apply (run_no_tool_calls st env tools (report_prompt st (world env)) _ turn Hmodel Hcalls)].
    events_eq.
  - match goal with |- context [final_report_tools ?s ?e] =>
      rewrite (final_report_tools_unfold s e turn eq_refl ltac:(by rewrite Hcalls));
      destruct (execute_tools_spec (tool_calls turn) e) as (done & Hev & Htr & Hok);
      destruct (execute_tools (tool_calls turn) e) as [env' [msgs|e']] end;
      simpl in *.
    + destruct (Hok _ eq_refl) as (Hl & Hlm & Hf).
      rewrite Hl, firstn_all in Htr.
      eexists. split;
        [|apply (run_tools_done st env tools (report_prompt st (world env)) _ turn done msgs Hmodel
                   ltac:(by rewrite Hcalls) Htr Hlm Hf)].
      rewrite Hev. events_eq.
    + eexists. split;
        [|apply (run_tools_raise st env tools (report_prompt st (world env)) _ turn done e' Hmodel
                   ltac:(by rewrite Hcalls) Htr)].
      rewrite Hev. events_eq.
Qed.


Lemma apply_empty_update (st : AgentState) : apply_update st empty_update = st.
Proof. destruct st. unfold apply_update. simpl. by rewrite app_nil_r. Qed.

Lemma node_trace_client_events (env : Env W) : node_trace (client_events env) = [].
Proof. unfold client_events. by destruct (client_created env). Qed.
Lemma model_calls_client_events (env : Env W) : model_calls (client_events env) = [].
Proof. unfold client_events. by destruct (client_created env). Qed.
Lemma tool_trace_client_events (env : Env W) : tool_trace (client_events env) = [].
Proof. unfold client_events. by destruct (client_created env). Qed.
Lemma final_report_writes_client_events (env : Env W) :
  final_report_writes (client_events env) = [].
Proof. unfold client_events. by destruct (client_created env). Qed.

Ltac log_simpl :=
  unfold generation_events;
  repeat (progress (autorewrite with evlog; simpl));
  rewrite ?node_trace_client_events, ?model_calls_client_events,
    ?tool_trace_client_events, ?final_report_writes_client_events; simpl.

Ltac no_node :=
  let H := fresh in
  intros H;
  repeat (apply elem_of_cons in H as [H|H]; [discriminate H|]);
  by apply elem_of_nil in H.

(** C5: a run of the report subgraph visits the generation node at most once
    and invokes the model at most once; from the start of the tools node on
    there is neither a model invocation nor a visit of the generation node.
    A run that returns has visited generation then tools, has invoked the
    model exactly once, and the text of its final report is the content of
    that one turn, with or without tool calls (the turn itself when it has
    none, its content string when it has some). *)
Theorem report_single_generation (st : AgentState) (env : Env W) :
  exists new : list Event,
    events (fst (research_report st env)) = events env ++ new /\
    length (model_calls new) <= 1 /\
    prefix (node_trace new) ["final_report_generation"; "final_report_tools"] /\
    (exists before after : list Event,
        new = before ++ after /\
        ("final_report_tools" ∉ node_trace before) /\
        (after = [] \/ exists rest, after = EvNode "final_report_tools" :: rest) /\
        model_calls after = [] /\
        ("final_report_generation" ∉ node_trace after)) /\
    (forall st', snd (research_report st env) = Ok st' ->
       node_trace new = ["final_report_generation"; "final_report_tools"] /\
       exists tools prompt w turn v,
         model_calls new = [(tools, prompt)] /\
         snd (model_ainvoke tools prompt w) = Ok turn /\
         final_report st' = Some v /\
         report_body v = content turn /\
         (tool_calls turn = [] -> v = ReportTurn turn) /\
         (tool_calls turn <> [] -> v = ReportText (content turn))).
Proof.
  destruct (research_report_run st env) as (new & Hev & Hrun).
  exists new. split; [exact Hev|].
  destruct Hrun as [e|tools prompt e|tools prompt w turn Hm Hc
                   |tools prompt w turn done e Hm Hc Htr
                   |tools prompt w turn done msgs Hm Hc Htr Hl Hf].
  - split; [log_simpl; lia|]. split; [log_simpl; by eexists|].
    split; [|discriminate].
    eexists _, []. rewrite app_nil_r. split; [reflexivity|].
    log_simpl. split; [no_node|]. split; [by left|]. split; [done|no_node].
  - split; [log_simpl; lia|]. split; [log_simpl; by eexists|].
    split; [|discriminate].
    eexists _, []. rewrite app_nil_r. split; [reflexivity|].
    log_simpl. split; [no_node|]. split; [by left|]. split; [done|no_node].
  - split; [log_simpl; lia|]. split; [log_simpl; done|].
    split.
    + exists ([EvNode "final_report_generation"] ++ client_events env ++
              [EvGetTools; EvModel tools prompt;
               EvWrite "final_report_generation" (generation_update turn)]),
             [EvNode "final_report_tools"; EvWrite "final_report_tools" empty_update].
      split; [events_eq|]. log_simpl.
      split; [no_node|]. split; [right; by eexists|]. split; [done|no_node].
    + intros st' [= <-]. log_simpl. split; [done|].
      exists tools, prompt, w, turn, (ReportTurn turn).
      simpl. by repeat split.
  - split; [log_simpl; lia|].
    split; [log_simpl; done|].
    split; [|discriminate].
    exists ([EvNode "final_report_generation"] ++ client_events env ++
            [EvGetTools; EvModel tools prompt;
             EvWrite "final_report_generation" (generation_update turn)]),
           (EvNode "final_report_tools" :: EvGetTools :: tool_events done).
    split; [events_eq|]. log_simpl.
    split; [no_node|]. split; [right; by eexists|]. split; [done|no_node].
  - split; [log_simpl; lia|].
    split; [log_simpl; done|].
    split.
    + exists ([EvNode "final_report_generation"] ++ client_events env ++
              [EvGetTools; EvModel tools prompt;
               EvWrite "final_report_generation" (generation_update turn)]),
             (EvNode "final_report_tools" :: EvGetTools :: tool_events done ++
              [EvWrite "final_report_tools" (tools_update turn msgs)]).
      split; [events_eq|]. log_simpl.
      split; [no_node|]. split; [right; by eexists|]. split; [done|no_node].
    + intros st' [= <-]. log_simpl. split; [done|].
      exists tools, prompt, w, turn, (ReportText (content turn)).
      simpl. by repeat split.
Qed.




(** C3, amended: a tool invocation that raises is not caught.  When the
    calls before it ran and the invocation of call [tc] raises [e], then
    [execute_tools], the tools node and the whole report subgraph raise [e];
    the log ends with that invocation, so the later calls are not invoked,
    no tool message is produced and the tools node merges no update. *)
Theorem tool_error_propagates (st : AgentState) (env env2 : Env W)
    (turn : AIMessage) (pre post : list ToolCall) (tc : ToolCall)
    (tools : list Tool) (obs : list string) (tool : Tool) (e : PyExn) :
  final_report st = Some (ReportTurn turn) ->
  tool_calls turn = pre ++ tc :: post ->
  snd (client_get_tools (world env)) = Ok tools ->
  execute_loop (tools_by_name_of tools) pre [] (after_fetch env) = (env2, Ok obs) ->
  tools_by_name_of tools !! tc_name tc = Some tool ->
  snd (tool_ainvoke tool (tc_args tc) (world env2)) = Raise e ->
  let env3 := mkEnv (fst (tool_ainvoke tool (tc_args tc) (world env2)))
                (client_created env2)
                (events env2 ++ [EvTool tool (tc_args tc)]) in
  execute_tools (tool_calls turn) env = (env3, Raise e) /\
  final_report_tools st env = (env3, Raise e) /\
  (forall st0 env0 env1 cmd,
      final_report_generation st0 (logged (EvNode "final_report_generation") env0)
        = (env1, Ok cmd) ->
      st = apply_update st0 (update cmd) ->
      env = logged (EvNode "final_report_tools")
              (logged (EvWrite "final_report_generation" (update cmd)) env1) ->
      research_report st0 env0 = (env3, Raise e)).
Proof.
  intros Hfr Hcalls Hfetch Hpre Hl Hinv env3.
  assert (Hne : tool_calls turn <> []) by (rewrite Hcalls; by destruct pre).
  assert (Hexec : execute_tools (tool_calls turn) env = (env3, Raise e)).
  { rewrite execute_tools_unfold. cbv zeta. rewrite Hfetch, Hcalls.
    rewrite execute_loop_app, Hpre. simpl. rewrite Hl. munfold. simpl.
    by rewrite Hinv. }
  assert (Hnode : final_report_tools st env = (env3, Raise e)).
  { by rewrite (final_report_tools_unfold st env turn Hfr Hne), Hexec. }
  split; [done|]. split; [done|].
  intros st0 env0 env1 cmd Hgen -> ->.
  rewrite research_report_chain. unfold report_chain. munfold.
  unfold logged in *. simpl in *. rewrite Hgen. simpl. by rewrite Hnode.
Qed.

(** C4, amended: a tool call whose name is not in the fetched tool list
    raises [KeyError] with that name, once and without any invocation or
    retry.  The error is not confined to the call: [execute_tools], the
    tools node and the whole report subgraph raise it, the later calls are
    not invoked and the tools node merges no update. *)
Theorem unresolved_tool_propagates (st : AgentState) (env env2 : Env W)
    (turn : AIMessage) (pre post : list ToolCall) (tc : ToolCall)
    (tools : list Tool) (obs : list string) :
  final_report st = Some (ReportTurn turn) ->
  tool_calls turn = pre ++ tc :: post ->
  snd (client_get_tools (world env)) = Ok tools ->
  execute_loop (tools_by_name_of tools) pre [] (after_fetch env) = (env2, Ok obs) ->
  tools_by_name_of tools !! tc_name tc = None ->
  execute_tools (tool_calls turn) env = (env2, Raise (KeyError (tc_name tc))) /\
  final_report_tools st env = (env2, Raise (KeyError (tc_name tc))) /\
  (forall st0 env0 env1 cmd,
      final_report_generation st0 (logged (EvNode "final_report_generation") env0)
        = (env1, Ok cmd) ->
      st = apply_update st0 (update cmd) ->
      env = logged (EvNode "final_report_tools")
              (logged (EvWrite "final_report_generation" (update cmd)) env1) ->
      research_report st0 env0 = (env2, Raise (KeyError (tc_name tc)))).
Proof.
  intros Hfr Hcalls Hfetch Hpre Hl.
  assert (Hne : tool_calls turn <> []) by (rewrite Hcalls; by destruct pre).
  assert (Hexec : execute_tools (tool_calls turn) env
                  = (env2, Raise (KeyError (tc_name tc)))).
  { rewrite execute_tools_unfold. cbv zeta. rewrite Hfetch, Hcalls.
    rewrite execute_loop_app, Hpre. simpl. by rewrite Hl. }
  assert (Hnode : final_report_tools st env = (env2, Raise (KeyError (tc_name tc)))).
  { by rewrite (final_report_tools_unfold st env turn Hfr Hne), Hexec. }
  split; [done|]. split; [done|].
  intros st0 env0 env1 cmd Hgen -> ->.
  rewrite research_report_chain. unfold report_chain. munfold.
  unfold logged in *. simpl in *. rewrite Hgen. simpl. by rewrite Hnode.
Qed.

(** C6: when the generated turn has no tool calls, the run ends right after
    generation: the tools node only logs its empty update, and the world is
    the one generation left, so no model, tool-list or tool call is made.
    The key ["final_report"] however still holds the assistant turn that
    generation stored there, not the turn's text. *)
Theorem no_tool_calls_keeps_turn (st : AgentState) (env env1 : Env W)
    (turn : AIMessage) :
  final_report_generation st (logged (EvNode "final_report_generation") env)
    = (env1, Ok {| goto := Some "final_report_tools";
                   update := generation_update turn |}) ->
  tool_calls turn = [] ->
  let st' := apply_update st (generation_update turn) in
  research_report st env =
    (mkEnv (world env1) (client_created env1)
       (events env1 ++ [EvWrite "final_report_generation" (generation_update turn);
                        EvNode "final_report_tools";
                        EvWrite "final_report_tools" empty_update]),
     Ok st') /\
  gateway_calls [EvWrite "final_report_generation" (generation_update turn);
                 EvNode "final_report_tools";
                 EvWrite "final_report_tools" empty_update] = [] /\
  final_report st' = Some (ReportTurn turn) /\
  final_report st' <> Some (ReportText (content turn)).
Proof.
  intros Hgen Hcalls st'.
  split; [|split; [reflexivity|split; [reflexivity|discriminate]]].
  rewrite research_report_chain. unfold report_chain. munfold.
  unfold logged in *. simpl in *. rewrite Hgen. simpl.
  unfold final_report_tools. simpl. rewrite Hcalls. simpl.
  rewrite <- !app_assoc. simpl. subst st'.
  by rewrite (apply_empty_update (apply_update st (generation_update turn))).
Qed.

Lemma report_run_writes (st : AgentState) (env : Env W) (new : list Event)
    (r : Result AgentState) :
  report_run st env new r ->
  ((exists e, r = Raise e) /\
   (final_report_writes new = [] \/
    exists turn,
      final_report_writes new = [("final_report_generation", ReportTurn turn)])) \/
  (exists st' turn,
     r = Ok st' /\ tool_calls turn = [] /\
     final_report st' = Some (ReportTurn turn) /\
     final_report_writes new = [("final_report_generation", ReportTurn turn)]) \/
  (exists st' turn,
     r = Ok st' /\ tool_calls turn <> [] /\
     final_report st' = Some (ReportText (content turn)) /\
     final_report_writes new = [("final_report_generation", ReportTurn turn);
                                 ("final_report_tools", ReportText (content turn))]).
Proof.
  intros [e|tools prompt e|tools prompt w turn Hm Hc
         |tools prompt w turn done e Hm Hc Htr
         |tools prompt w turn done msgs Hm Hc Htr Hl Hf]; log_simpl.
  - left. split; [by eexists|by left].
  - left. split; [by eexists|by left].
  - right. left. by eexists _, turn.
  - left. split; [by eexists|]. right. by exists turn.
  - right. right. by eexists _, turn.
Qed.

End ReportProofs.

Section AgentProofs.
Context {W : Type} {G : Gateways W} {St : Stages W}.

#[local] Arguments run_from : simpl never.

Lemma successors_scope (st : AgentState) :
  successors deep_researcher_builder "scope_subgraph" st None =
  Ok [if truthy (research_brief st) then "supervisor_subgraph" else END].
Proof.
  unfold successors, branch_targets.
  change (g_branches deep_researcher_builder !! "scope_subgraph")
    with (Some (route_after_scoping,
                [("__end__", END); ("supervisor_subgraph", "supervisor_subgraph")])).
  unfold route_after_scoping. by destruct (truthy (research_brief st)).
Qed.

Ltac run_step' :=
  match goal with
  | |- context [run_from (S ?f) ?g ?c ?s ?e] =>
      rewrite (run_from_step f g c s e) by (unfold END; discriminate)
  end.

Lemma agent_chain_eq (st : AgentState) (env : Env W) :
  agent st env = agent_chain st env.
Proof.
  unfold agent, compile, agent_chain, scope_node, supervisor_node.
  change (successors deep_researcher_builder START st None) with
    (Ok ["scope_subgraph"] : Result (list string)).
  unfold recursion_limit. cbv beta iota. run_step'.
  change (g_nodes deep_researcher_builder !! "scope_subgraph")
    with (Some (NodeFn scope_node)).
  unfold run_node, scope_node, supervisor_node. munfold. simpl.
  destruct (snd (research_scope st (world env))) as [su|e]; simpl; [|reflexivity].
  rewrite successors_scope.
  destruct (truthy _) eqn:Hb; cbv beta iota.
  2:{ by rewrite run_from_end. }
  run_step'.
  change (g_nodes deep_researcher_builder !! "supervisor_subgraph")
    with (Some (NodeFn supervisor_node)).
  unfold run_node, supervisor_node. munfold. simpl.
  destruct (snd (supervisor_agent _ _)) as [sv|e]; simpl; [|reflexivity].
  change (successors deep_researcher_builder "supervisor_subgraph" ?s None)
    with (Ok ["report_subgraph"] : Result (list string)).
  cbv beta iota. run_step'.
  change (g_nodes deep_researcher_builder !! "report_subgraph")
    with (Some (NodeGraph research_report)).
  unfold run_node. munfold. simpl.
  destruct (research_report _ _) as [env' [st'|e]]; simpl; [|reflexivity].
  change (successors deep_researcher_builder "report_subgraph" ?s None)
    with (Ok [END] : Result (list string)).
  cbv beta iota. by rewrite run_from_end.
Qed.


Lemma truthy_spec (v : option string) :
  truthy v = true <-> exists b, v = Some b /\ b <> "".
Proof.
  destruct v as [b|]; simpl.
  - destruct (String.eqb_spec b "") as [->|Hne]; simpl; split.
    + discriminate.
    + intros (b & [= <-] & Hb). done.
    + intros _. by exists b.
    + done.
  - split; [discriminate|]. by intros (b & [=] & _).
Qed.

(** C1: for the state [st] that scoping produces, the route is the
    supervisor exactly when [research_brief] is a non-empty string.  When
    the brief is empty or absent the route is the end, and the run returns
    [st] with a log that holds the scoping node alone and a world that only
    scoping touched: neither the supervisor nor the report stage ran.  When
    the brief is non-empty the next node to run is the supervisor. *)
Theorem route_after_scoping_guard (st0 : AgentState) (env : Env W) (su : ScopeUpdate) :
  snd (research_scope st0 (world env)) = Ok su ->
  let st := apply_update st0 (scope_update su) in
  let env1 := mkEnv (fst (research_scope st0 (world env))) (client_created env)
                (events env ++ [EvNode "scope_subgraph";
                                EvWrite "scope_subgraph" (scope_update su)]) in
  (route_after_scoping st = "supervisor_subgraph" <->
     exists b, research_brief st = Some b /\ b <> "") /\
  ((forall b, research_brief st = Some b -> b = "") ->
     route_after_scoping st = END /\ agent st0 env = (env1, Ok st)) /\
  ((exists b, research_brief st = Some b /\ b <> "") ->
     exists rest, events (fst (agent st0 env)) =
                    events env1 ++ EvNode "supervisor_subgraph" :: rest).
Proof.
  intros Hscope st env1.
  assert (Hroute : route_after_scoping st = "supervisor_subgraph" <->
                   truthy (research_brief st) = true).
  { unfold route_after_scoping. destruct (truthy (research_brief st)); split;
      try done; discriminate. }
  split; [by rewrite Hroute, truthy_spec|].
  rewrite agent_chain_eq. unfold agent_chain, scope_node, supervisor_node. munfold.
  simpl. rewrite Hscope. simpl.
  change (match su_research_brief su with
          | Some b => Some b
          | None => research_brief st0
          end) with (research_brief st).
  fold st. split.
  - intros Hempty.
    assert (Hf : truthy (research_brief st) = false).
    { destruct (truthy (research_brief st)) eqn:Ht; [|done].
      apply truthy_spec in Ht as (b & Hb & Hne). destruct (Hne (Hempty b Hb)). }
    unfold route_after_scoping. rewrite Hf. split; [done|].
    subst env1. by rewrite <- app_assoc.
  - intros Hb. apply truthy_spec in Hb. rewrite Hb. simpl.
    destruct (snd (supervisor_agent st _)) as [sv|e]; simpl.
    + match goal with |- context [research_report ?s ?e] =>
        destruct (research_report_run s e) as (new & Hev & _);
        destruct (research_report s e) as [env' [sub|e']] end; simpl in *.
      * rewrite Hev. eexists. repeat (rewrite <- app_assoc; simpl). reflexivity.
      * rewrite Hev. eexists. repeat (rewrite <- app_assoc; simpl). reflexivity.
    + exists []. by repeat (rewrite <- app_assoc; simpl).
Qed.

(** C9: two states with the same [research_brief] are routed the same way,
    whatever their messages, notes and final report. *)
Theorem route_depends_on_brief_only (s1 s2 : AgentState) :
  research_brief s1 = research_brief s2 ->
  route_after_scoping s1 = route_after_scoping s2.
Proof. unfold route_after_scoping. by intros ->. Qed.

(** C7, amended: in a run of the workflow the key ["final_report"] of the
    workflow's state is written at most once, by the node [report_subgraph]
    when the report stage returns, with the value that stage ended on;
    scoping and supervising never write it.  Inside the report stage the
    key of the stage's own state is written by the generation node, which
    stores the assistant turn, and, when that turn carries tool calls and
    they all ran, a second time by the tools node, which stores the turn's
    text. *)
Theorem final_report_writes_of_a_run (st0 : AgentState) (env : Env W) :
  exists new : list Event,
    events (fst (agent st0 env)) = events env ++ new /\
    (final_report_writes new = [] \/
     exists turn,
       final_report_writes new = [("final_report_generation", ReportTurn turn)] \/
       (tool_calls turn = [] /\
        final_report_writes new = [("final_report_generation", ReportTurn turn);
                                    ("report_subgraph", ReportTurn turn)]) \/
       (tool_calls turn <> [] /\
        final_report_writes new = [("final_report_generation", ReportTurn turn);
                                    ("final_report_tools", ReportText (content turn));
                                    ("report_subgraph", ReportText (content turn))])).
Proof.
  rewrite agent_chain_eq. unfold agent_chain, scope_node, supervisor_node. munfold.
  simpl.
  destruct (snd (research_scope st0 (world env))) as [su|e]; simpl.
  2:{ exists [EvNode "scope_subgraph"]. split; [done|by left]. }
  destruct (truthy _); simpl.
  2:{ eexists. rewrite <- app_assoc. split; [reflexivity|]. by left. }
  destruct (snd (supervisor_agent _ _)) as [sv|e]; simpl.
  2:{ eexists. repeat (rewrite <- app_assoc; simpl). split; [reflexivity|]. by left. }
  match goal with |- context [research_report ?s ?e] =>
    destruct (research_report_run s e) as (new & Hev & Hrun);
    destruct (research_report s e) as [env' r] end.
  apply report_run_writes in Hrun. simpl in *.
  destruct Hrun as [[[e ->] Hw]|[(sub & turn & -> & Hc & Hfr & Hw)
                                |(sub & turn & -> & Hc & Hfr & Hw)]]; simpl.
  - rewrite Hev. eexists. repeat (rewrite <- app_assoc; simpl).
    split; [reflexivity|]. simpl.
    destruct Hw as [Hw|[turn Hw]]; [by left|]. right. exists turn. by left.
  - rewrite Hev. eexists. repeat (rewrite <- app_assoc; simpl).
    split; [reflexivity|]. simpl. rewrite final_report_writes_app, Hw. simpl.
    rewrite Hfr. right. exists turn. right. by left.
  - rewrite Hev. eexists. repeat (rewrite <- app_assoc; simpl).
    split; [reflexivity|]. simpl. rewrite final_report_writes_app, Hw. simpl.
    rewrite Hfr. right. exists turn. right. by right.
Qed.

End AgentProofs.

Section SupervisorProofs.
Import Supervisor.

Lemma complete_length (threads : list ResearchThread) (slots : Slots) (i : nat) :
  length (complete threads slots i) = length slots.
Proof. unfold complete. destruct (threads !! i); [apply length_insert|done]. Qed.

Lemma run_slot (threads : list ResearchThread) (schedule : list nat)
    (slots : Slots) (j : nat) (t : ResearchThread) :
  threads !! j = Some t ->
  j < length slots ->
  slots !! j = Some (Some (resultNotes t)) \/ j ∈ schedule ->
  foldl (complete threads) slots schedule !! j = Some (Some (resultNotes t)).
Proof.
  intros Ht. revert slots.
  induction schedule as [|i rest IH]; intros slots Hlen Hcase; simpl.
  - destruct Hcase as [H|H]; [done|by apply elem_of_nil in H].
  - apply IH; [by rewrite complete_length|].
    destruct (decide (i = j)) as [->|Hne].
    + left. unfold complete. rewrite Ht. by apply list_lookup_insert_eq.
    + destruct Hcase as [H|H].
      * left. unfold complete. destruct (threads !! i); [|done].
        by rewrite list_lookup_insert_ne.
      * apply elem_of_cons in H as [->|H]; [done|by right].
Qed.

Lemma run_length (threads : list ResearchThread) (schedule : list nat) (slots : Slots) :
  length (foldl (complete threads) slots schedule) = length slots.
Proof.
  revert slots. induction schedule as [|i rest IH]; intros slots; simpl; [done|].
  by rewrite IH, complete_length.
Qed.

Lemma all_complete_filled (threads : list ResearchThread) :
  all_complete (map (fun t => Some (resultNotes t)) threads)
  = Some (map resultNotes threads).
Proof. induction threads as [|t ts IH]; simpl; [done|by rewrite IH]. Qed.

Lemma run_schedule_filled (threads : list ResearchThread) (schedule : list nat) :
  (forall j, j < length threads -> j ∈ schedule) ->
  run_schedule threads schedule = map (fun t => Some (resultNotes t)) threads.
Proof.
  intros Hall. apply list_eq. intros j. unfold run_schedule, dispatch.
  destruct (threads !! j) as [t|] eqn:Ht.
  - rewrite (run_slot threads schedule _ j t Ht).
    + change (map ?f ?l) with (f <$> l). by rewrite list_lookup_fmap, Ht.
    + rewrite length_replicate. by eapply lookup_lt_Some.
    + right. apply Hall. by eapply lookup_lt_Some.
  - change (map ?f ?l) with (f <$> l). rewrite list_lookup_fmap, Ht. simpl.
    apply lookup_ge_None. rewrite run_length, length_replicate.
    by apply lookup_ge_None.
Qed.

(** C8: when every dispatched thread completes once, in whatever order, the
    merged notes are the concatenation of the threads' notes in dispatch
    order; two completion orders give the same merged notes. *)
Theorem merge_in_dispatch_order (threads : list ResearchThread)
    (schedule schedule' : list nat) :
  schedule ≡ₚ seq 0 (length threads) ->
  schedule' ≡ₚ seq 0 (length threads) ->
  supervise_notes threads schedule = Some (concat (map resultNotes threads)) /\
  supervise_notes threads schedule' = supervise_notes threads schedule.
Proof.
  assert (H : forall s, s ≡ₚ seq 0 (length threads) ->
              supervise_notes threads s = Some (concat (map resultNotes threads))).
  { intros s Hs. unfold supervise_notes, merge.
    rewrite run_schedule_filled, all_complete_filled; [done|].
    intros j Hj. rewrite Hs. apply elem_of_seq. lia. }
  intros H1 H2. by rewrite (H _ H1), (H _ H2).
Qed.
End SupervisorProofs.

Section ModelConfigProofs.
Import ModelConfig.
Context {Model : Type} {P : Providers Model}.

(** C10: [init_chat_model_from_env] returns the configured model when it can
    be built; when building it raises, the model of [fallback_model]; when
    that raises too, whatever [init_chat_model("openai:gpt-4o")] gives.  A
    malformed model string is one way of the first failure.  An exception
    that leaves the function is therefore the one of the hard-coded last
    call, and when that call succeeds the function returns a model for
    every configuration. *)
Theorem init_chat_model_from_env_fallback (env_var fallback_model : string)
    (kwargs : Kwargs) :
  let model_string := default fallback_model (getenv env_var) in
  let r := init_chat_model_from_env env_var fallback_model kwargs in
  (forall m, try_init_model model_string kwargs = Ok m -> r = Ok m) /\
  (forall e m, try_init_model model_string kwargs = Raise e ->
               try_init_model fallback_model kwargs = Ok m -> r = Ok m) /\
  (forall e e', try_init_model model_string kwargs = Raise e ->
                try_init_model fallback_model kwargs = Raise e' ->
                r = init_chat_model "openai:gpt-4o" kwargs) /\
  (forall e, parse_model_string model_string = Raise e ->
             r = match try_init_model fallback_model kwargs with
                 | Ok m => Ok m
                 | Raise _ => init_chat_model "openai:gpt-4o" kwargs
                 end) /\
  (forall e, r = Raise e -> init_chat_model "openai:gpt-4o" kwargs = Raise e) /\
  (forall m0, init_chat_model "openai:gpt-4o" kwargs = Ok m0 -> exists m, r = Ok m).
Proof.
  intros model_string r. subst r. unfold init_chat_model_from_env. fold model_string.
  repeat split.
  - by intros m ->.
  - by intros e m -> ->.
  - by intros e e' -> ->.
  - intros e He. unfold try_init_model at 1. by rewrite He.
  - intros e. destruct (try_init_model model_string kwargs); [discriminate|].
    by destruct (try_init_model fallback_model kwargs).
  - intros m0 H0. destruct (try_init_model model_string kwargs); [by eexists|].
    destruct (try_init_model fallback_model kwargs); by eexists.
Qed.
End ModelConfigProofs.

(** ** Examples *)

(** A whole run of the report subgraph on a turn with two tool calls. *)
Example report_run_saved :
  research_report (G := Demo.gateways Demo.turn_saved) Demo.researched Demo.env0 =
  (mkEnv 5 true
     [EvNode "final_report_generation"; EvNewClient; EvGetTools;
      EvModel [Demo.read_file; Demo.write_file]
        [TextMessage "brief | note A
note B | Tue Nov 3, 2026"];
      EvWrite "final_report_generation" (generation_update Demo.turn_saved);
      EvNode "final_report_tools"; EvGetTools;
      EvTool Demo.write_file [("path", "report.md")];
      EvTool Demo.write_file [("path", "copy.md")];
      EvWrite "final_report_tools"
        (tools_update Demo.turn_saved
           [ToolMessage "Successfully wrote the file" "write_file" "call_1";
            ToolMessage "Successfully wrote the file" "write_file" "call_3"])],
   Ok (mkAgentState
         [TextMessage "Compare two products";
          TextMessage "Here is the final report: REPORT";
          ToolMessage "Successfully wrote the file" "write_file" "call_1";
          ToolMessage "Successfully wrote the file" "write_file" "call_3"]
         (Some "brief") (Some ["note A"; "note B"]) (Some (ReportText "REPORT")))).
Proof. vm_compute. reflexivity. Qed.

(** Scoping returns an empty brief: the run ends after the scoping node. *)
Lemma route_after_scoping_guard_witness :
  snd (@research_scope nat (Demo.stages (Some "")) (initial_state [TextMessage "cats"])
         (world Demo.env0))
    = Ok (mkScopeUpdate (Some "") [TextMessage "scoped"]) /\
  agent (G := Demo.gateways Demo.turn_plain) (St := Demo.stages (Some ""))
    (initial_state [TextMessage "cats"]) Demo.env0 =
  (mkEnv 1 false
     [EvNode "scope_subgraph";
      EvWrite "scope_subgraph" (scope_update (mkScopeUpdate (Some "") [TextMessage "scoped"]))],
   Ok (mkAgentState [TextMessage "cats"; TextMessage "scoped"] (Some "") None None)).
Proof.
  split; [reflexivity|].
  apply (route_after_scoping_guard (G := Demo.gateways Demo.turn_plain)
           (St := Demo.stages (Some ""))
           (initial_state [TextMessage "cats"]) Demo.env0
           (mkScopeUpdate (Some "") [TextMessage "scoped"]) eq_refl).
  intros b [= <-]. reflexivity.
Defined.


(** The second call, [read_file], raises: the tools node raises with it. *)
Lemma tool_error_propagates_witness :
  final_report (Demo.generated Demo.turn_read_fails)
    = Some (ReportTurn Demo.turn_read_fails) /\
  tool_calls Demo.turn_read_fails = [Demo.save_call] ++ Demo.read_call :: [Demo.copy_call] /\
  snd (@tool_ainvoke nat (Demo.gateways Demo.turn_read_fails) Demo.read_file
         (tc_args Demo.read_call) (world Demo.env_after_save))
    = Raise (ToolException "ENOENT: no such file") /\
  final_report_tools (G := Demo.gateways Demo.turn_read_fails)
      (Demo.generated Demo.turn_read_fails) Demo.env0
    = (mkEnv 3 true
         [EvNewClient; EvGetTools;
          EvTool Demo.write_file [("path", "report.md")];
          EvTool Demo.read_file [("path", "missing.md")]],
       Raise (ToolException "ENOENT: no such file")).
Proof.
  split; [reflexivity|]. split; [reflexivity|]. split; [reflexivity|].
  apply (tool_error_propagates (G := Demo.gateways Demo.turn_read_fails)
           (Demo.generated Demo.turn_read_fails) Demo.env0 Demo.env_after_save
           Demo.turn_read_fails [Demo.save_call] [Demo.copy_call] Demo.read_call
           [Demo.read_file; Demo.write_file] ["Successfully wrote the file"]
           Demo.read_file (ToolException "ENOENT: no such file")
           eq_refl eq_refl eq_refl eq_refl eq_refl eq_refl).
Defined.

(** The claim C3 as stated fails here: [read_file] raises, and the report
    subgraph raises the same error instead of returning a state; the third
    call is never invoked and the only write of the final report is the one
    of generation. *)
Lemma tool_error_not_recorded :
  snd (@tool_ainvoke nat (Demo.gateways Demo.turn_read_fails) Demo.read_file
         (tc_args Demo.read_call) 4)
    = Raise (ToolException "ENOENT: no such file") /\
  snd (research_report (G := Demo.gateways Demo.turn_read_fails)
         Demo.researched Demo.env0)
    = Raise (ToolException "ENOENT: no such file") /\
  (forall st', snd (research_report (G := Demo.gateways Demo.turn_read_fails)
                      Demo.researched Demo.env0) <> Ok st') /\
  tool_trace (events (fst (research_report (G := Demo.gateways Demo.turn_read_fails)
                             Demo.researched Demo.env0)))
    = [call_sig Demo.save_call; call_sig Demo.read_call] /\
  final_report_writes
    (events (fst (research_report (G := Demo.gateways Demo.turn_read_fails)
                    Demo.researched Demo.env0)))
    = [("final_report_generation", ReportTurn Demo.turn_read_fails)].
Proof. vm_compute. repeat split. discriminate. Qed.

(** The second call names [delete_file], which the server does not offer. *)
Lemma unresolved_tool_propagates_witness :
  final_report (Demo.generated Demo.turn_unknown) = Some (ReportTurn Demo.turn_unknown) /\
  tool_calls Demo.turn_unknown = [Demo.save_call] ++ Demo.unknown_call :: [Demo.copy_call] /\
  tools_by_name_of [Demo.read_file; Demo.write_file] !! tc_name Demo.unknown_call = None /\
  final_report_tools (G := Demo.gateways Demo.turn_unknown)
      (Demo.generated Demo.turn_unknown) Demo.env0
    = (Demo.env_after_save, Raise (KeyError "delete_file")).
Proof.
  split; [reflexivity|]. split; [reflexivity|]. split; [vm_compute; reflexivity|].
  apply (unresolved_tool_propagates (G := Demo.gateways Demo.turn_unknown)
           (Demo.generated Demo.turn_unknown) Demo.env0 Demo.env_after_save
           Demo.turn_unknown [Demo.save_call] [Demo.copy_call] Demo.unknown_call
           [Demo.read_file; Demo.write_file] ["Successfully wrote the file"]
           eq_refl eq_refl eq_refl eq_refl eq_refl).
Defined.

(** The claim C4 as stated fails here: [delete_file] does not resolve, and
    the report subgraph raises [KeyError] instead of returning a state; the
    call after it is never invoked. *)
Lemma unresolved_tool_aborts_stage :
  tools_by_name_of [Demo.read_file; Demo.write_file] !! tc_name Demo.unknown_call = None /\
  snd (research_report (G := Demo.gateways Demo.turn_unknown)
         Demo.researched Demo.env0)
    = Raise (KeyError "delete_file") /\
  (forall st', snd (research_report (G := Demo.gateways Demo.turn_unknown)
                      Demo.researched Demo.env0) <> Ok st') /\
  tool_trace (events (fst (research_report (G := Demo.gateways Demo.turn_unknown)
                             Demo.researched Demo.env0)))
    = [call_sig Demo.save_call].
Proof. vm_compute. repeat split. discriminate. Qed.

(** A turn without tool calls: the run returns with the turn itself under
    ["final_report"], not the string ["REPORT"]. *)
Lemma no_tool_calls_keeps_turn_witness :
  tool_calls Demo.turn_plain = [] /\
  (exists env', research_report (G := Demo.gateways Demo.turn_plain)
                  Demo.researched Demo.env0
                = (env', Ok (Demo.generated Demo.turn_plain))) /\
  final_report (Demo.generated Demo.turn_plain) = Some (ReportTurn Demo.turn_plain) /\
  final_report (Demo.generated Demo.turn_plain) <> Some (ReportText "REPORT").
Proof.
  split; [reflexivity|].
  destruct (no_tool_calls_keeps_turn (G := Demo.gateways Demo.turn_plain)
              Demo.researched Demo.env0
              (mkEnv 2 true
                 [EvNode "final_report_generation"; EvNewClient; EvGetTools;
                  EvModel [Demo.read_file; Demo.write_file]
                    (report_prompt (G := Demo.gateways Demo.turn_plain)
                       Demo.researched 0)])
              Demo.turn_plain eq_refl eq_refl) as (Hrun & _ & Hturn & Htext).
  split; [by eexists|]. split; [exact Hturn|exact Htext].
Defined.

(** The claim C7 as stated fails here: in a run whose generated turn carries
    tool calls the report stage assigns ["final_report"] a second time, the
    tools node after the generation node, before the result is merged into
    the workflow's state. *)
Lemma final_report_assigned_again :
  final_report_writes
    (events (fst (research_report (G := Demo.gateways Demo.turn_saved)
                    Demo.researched Demo.env0)))
  = [("final_report_generation", ReportTurn Demo.turn_saved);
     ("final_report_tools", ReportText "REPORT")] /\
  final_report_writes
    (events (fst (agent (G := Demo.gateways Demo.turn_saved)
                    (St := Demo.stages (Some "brief"))
                    (initial_state [TextMessage "Compare two products"]) Demo.env0)))
  = [("final_report_generation", ReportTurn Demo.turn_saved);
     ("final_report_tools", ReportText "REPORT");
     ("report_subgraph", ReportText "REPORT")].
Proof. vm_compute. split; reflexivity. Qed.

(** T2 completes before T1, or the threads complete in reverse order: the
    merged notes are the same. *)
Lemma merge_in_dispatch_order_witness :
  [1; 0; 2] ≡ₚ seq 0 (length Demo.three_threads) /\
  [2; 1; 0] ≡ₚ seq 0 (length Demo.three_threads) /\
  Supervisor.supervise_notes Demo.three_threads [1; 0; 2]
    = Some ["a1"; "a2"; "b1"; "c1"; "c2"] /\
  Supervisor.supervise_notes Demo.three_threads [2; 1; 0]
    = Supervisor.supervise_notes Demo.three_threads [1; 0; 2].
Proof.
  assert (H1 : [1; 0; 2] ≡ₚ seq 0 (length Demo.three_threads)) by apply perm_swap.
  assert (H2 : [2; 1; 0] ≡ₚ seq 0 (length Demo.three_threads)).
  { simpl. etransitivity; [apply perm_swap|]. etransitivity; [apply perm_skip, perm_swap|].
    apply perm_swap. }
  split; [exact H1|]. split; [exact H2|].
  exact (merge_in_dispatch_order Demo.three_threads [1; 0; 2] [2; 1; 0] H1 H2).
Defined.

(** Two states that share the brief and nothing else. *)
Lemma route_depends_on_brief_only_witness :
  research_brief (mkAgentState [] (Some "brief") None None)
    = research_brief (mkAgentState [TextMessage "hello"] (Some "brief") (Some ["n"])
                        (Some (ReportText "old"))) /\
  route_after_scoping (mkAgentState [] (Some "brief") None None)
    = route_after_scoping (mkAgentState [TextMessage "hello"] (Some "brief") (Some ["n"])
                             (Some (ReportText "old"))).
Proof.
  split; [reflexivity|].
  apply (route_depends_on_brief_only
           (mkAgentState [] (Some "brief") None None)
           (mkAgentState [TextMessage "hello"] (Some "brief") (Some ["n"])
              (Some (ReportText "old")))).
  reflexivity.
Defined.

(** The examples of the docstring of [parse_model_string]. *)
Example parse_openai :
  ModelConfig.parse_model_string "openai:gpt-4o" = Ok ("openai", "gpt-4o").
Proof. reflexivity. Qed.

Example parse_lmstudio :
  ModelConfig.parse_model_string "lmstudio://localhost:1234/qwen/qwen3-4b-thinking-2507"
  = Ok ("lmstudio", "localhost:1234/qwen/qwen3-4b-thinking-2507").
Proof. reflexivity. Qed.

Example parse_ollama :
  ModelConfig.parse_model_string "ollama://localhost:11434/gemma3-lc:12b"
  = Ok ("ollama", "localhost:11434/gemma3-lc:12b").
Proof. reflexivity. Qed.

Example parse_malformed :
  ModelConfig.parse_model_string "gpt4"
  = Raise (ValueError "Invalid model string format: gpt4. Expected 'provider:model' or 'provider://host:port/model'").
Proof. reflexivity. Qed.

(** A local model string reaches [ChatOpenAI] with the rebuilt URL. *)
Example local_model_lmstudio :
  ModelConfig.try_init_model (P := Demo.providers)
    "lmstudio://localhost:1234/qwen/qwen3-4b-thinking-2507" []
  = Ok "ChatOpenAI(qwen/qwen3-4b-thinking-2507 at http://localhost:1234/v1)".
Proof. vm_compute. reflexivity. Qed.

(** [REPORT_MODEL] is malformed and the fallback cannot be built: the result
    is the hard-coded model. *)
Lemma init_chat_model_from_env_fallback_witness :
  ModelConfig.parse_model_string "gpt4"
    = Raise (ValueError "Invalid model string format: gpt4. Expected 'provider:model' or 'provider://host:port/model'") /\
  ModelConfig.init_chat_model_from_env (P := Demo.providers)
    "REPORT_MODEL" "anthropic:claude" []
  = Ok "ChatOpenAI(gpt-4o)".
Proof.
  split; [reflexivity|].
  destruct (init_chat_model_from_env_fallback (P := Demo.providers)
              "REPORT_MODEL" "anthropic:claude" []) as (_ & _ & H3 & _).
  rewrite (H3 (ValueError "Invalid model string format: gpt4. Expected 'provider:model' or 'provider://host:port/model'")
              (ValueError "Unable to infer model provider for anthropic:claude")
              eq_refl eq_refl).
  reflexivity.
Defined.

(** * More of the code *)

(** ** Facts about strings *)

Section StringFacts.

Lemma prefix_cons (a b : ascii) (s1 s2 : string) :
  String.prefix (String a s1) (String b s2)
  = if ascii_dec a b then String.prefix s1 s2 else false.
Proof. reflexivity. Qed.

Lemma prefix_nil (s : string) : String.prefix "" s = true.
Proof. by destruct s. Qed.

Lemma append_cons (a : ascii) (s t : string) :
  String a s +:+ t = String a (s +:+ t).
Proof. reflexivity. Qed.

Lemma append_nil (t : string) : "" +:+ t = t.
Proof. reflexivity. Qed.

Lemma prefix_append (s t : string) : String.prefix s (s +:+ t) = true.
Proof.
  induction s as [|a s IH]; [apply prefix_nil|].
  rewrite append_cons, prefix_cons. by destruct (ascii_dec a a).
Qed.

Lemma index_cons (sep : string) (b : ascii) (s : string) :
  String.index 0 sep (String b s)
  = if String.prefix sep (String b s) then Some 0
    else match String.index 0 sep s with Some n => Some (S n) | None => None end.
Proof. reflexivity. Qed.

Lemma substring_all (s : string) : String.substring 0 (String.length s) s = s.
Proof. induction s as [|c s IH]; simpl; [done|by rewrite IH]. Qed.

(** A string that starts with [sep] splits into [sep] and the rest. *)
Lemma prefix_split (sep s : string) :
  String.prefix sep s = true ->
  s = sep +:+ String.substring (String.length sep) (String.length s - String.length sep) s.
Proof.
  revert s. induction sep as [|a sep IH]; intros s H.
  - simpl. by rewrite append_nil, Nat.sub_0_r, substring_all.
  - destruct s as [|b s]; [done|].
    rewrite prefix_cons in H. destruct (ascii_dec a b) as [->|]; [|done].
    rewrite append_cons. simpl. f_equal. by apply IH.
Qed.

Lemma substring_0_cons (n : nat) (c : ascii) (s : string) :
  String.substring 0 (S n) (String c s) = String c (String.substring 0 n s).
Proof. reflexivity. Qed.

Lemma substring_S_cons (n m : nat) (c : ascii) (s : string) :
  String.substring (S n) m (String c s) = String.substring n m s.
Proof. by destruct m. Qed.

(** [s.split(sep, 1)] cuts [s] at an occurrence of [sep]. *)
Lemma split_once_join (sep s a b : string) :
  ModelConfig.split_once sep s = Some (a, b) -> s = a +:+ sep +:+ b.
Proof.
  unfold ModelConfig.split_once.
  destruct (String.index 0 sep s) as [i|] eqn:Hi; [|done].
  intros [= <- <-]. revert i Hi.
  induction s as [|c s IH]; intros i Hi.
  - simpl in Hi. destruct sep; [|done]. injection Hi as <-. done.
  - rewrite index_cons in Hi.
    destruct (String.prefix sep (String c s)) eqn:Hp.
    + injection Hi as <-. simpl String.substring at 1. rewrite append_nil.
      rewrite Nat.add_0_l. by apply prefix_split.
    + destruct (String.index 0 sep s) as [j|]; [|done]. injection Hi as <-.
      rewrite substring_0_cons, append_cons. f_equal.
      change (S j + String.length sep) with (S (j + String.length sep)).
      rewrite substring_S_cons. simpl String.length.
      change (S (String.length s) - S (j + String.length sep))
        with (String.length s - (j + String.length sep)).
      by apply IH.
Qed.


Lemma prefix_substring (sep s : string) (n : nat) :
  String.prefix sep (String.substring 0 n s) = true -> String.prefix sep s = true.
Proof.
  revert s n. induction sep as [|a sep IH]; intros s n H; [apply prefix_nil|].
  destruct s as [|b s]; [by destruct n|].
  destruct n as [|n]; [done|].
  rewrite substring_0_cons, prefix_cons in H. rewrite prefix_cons.
  destruct (ascii_dec a b); [by eapply IH|done].
Qed.

(** Before its first occurrence in [s], [sep] does not occur. *)
Lemma index_before (sep s : string) (i : nat) :
  sep <> "" ->
  String.index 0 sep s = Some i ->
  String.index 0 sep (String.substring 0 i s) = None.
Proof.
  intros Hsep. revert i. induction s as [|c s IH]; intros i Hi.
  - destruct sep; [done|]. done.
  - rewrite index_cons in Hi.
    destruct (String.prefix sep (String c s)) eqn:Hp.
    + injection Hi as <-. simpl. by destruct sep.
    + destruct (String.index 0 sep s) as [j|] eqn:Hj; [|done]. injection Hi as <-.
      rewrite substring_0_cons, index_cons.
      destruct (String.prefix sep (String c (String.substring 0 j s))) eqn:Hp'.
      * rewrite <- substring_0_cons in Hp'. apply prefix_substring in Hp'. congruence.
      * by rewrite (IH j eq_refl).
Qed.

(** A string without the character [c] contains no string that starts with
    [c]. *)
Lemma index_none_first_char (c : ascii) (t s : string) :
  String.index 0 (String c "") s = None -> String.index 0 (String c t) s = None.
Proof.
  induction s as [|b s IH]; [done|].
  rewrite !index_cons, !prefix_cons. rewrite prefix_nil.
  destruct (ascii_dec c b); [done|].
  destruct (String.index 0 (String c "") s); [done|]. intros _. by rewrite IH.
Qed.

(** The first occurrence of [sep] in [p ++ sep ++ m] is right after [p] when
    [p] lacks the first character of [sep]. *)
Lemma index_fresh (c : ascii) (t p m : string) :
  String.index 0 (String c "") p = None ->
  String.index 0 (String c t) (p +:+ String c t +:+ m) = Some (String.length p).
Proof.
  induction p as [|b p IH]; intros Hp.
  - rewrite append_nil, append_cons, index_cons, <- append_cons.
    by rewrite prefix_append.
  - rewrite index_cons, prefix_cons, prefix_nil in Hp.
    destruct (ascii_dec c b) as [|Hne]; [done|].
    destruct (String.index 0 (String c "") p) eqn:Hq; [done|].
    rewrite append_cons, index_cons, prefix_cons.
    destruct (ascii_dec c b); [done|]. by rewrite IH.
Qed.

Lemma substring_append_l (a b : string) :
  String.substring 0 (String.length a) (a +:+ b) = a.
Proof.
  induction a as [|c a IH]; [by destruct b|].
  rewrite append_cons. simpl. by rewrite IH.
Qed.

Lemma substring_append_r (a b : string) (n : nat) :
  String.substring (String.length a) n (a +:+ b) = String.substring 0 n b.
Proof.
  induction a as [|c a IH]; [by rewrite append_nil|].
  rewrite append_cons. simpl String.length. by rewrite substring_S_cons.
Qed.

Lemma length_append (a b : string) :
  String.length (a +:+ b) = String.length a + String.length b.
Proof.
  induction a as [|c a IH]; [done|]. rewrite append_cons. simpl. by rewrite IH.
Qed.

Lemma append_assoc (a b c : string) : (a +:+ b) +:+ c = a +:+ b +:+ c.
Proof.
  induction a as [|x a IH]; [done|]. rewrite !append_cons. by rewrite IH.
Qed.

(** Splitting [p ++ sep ++ m] at the first [sep] gives back [p] and [m]
    when [p] lacks the first character of [sep]. *)
Lemma split_once_fresh (c : ascii) (t p m : string) :
  String.index 0 (String c "") p = None ->
  ModelConfig.split_once (String c t) (p +:+ String c t +:+ m) = Some (p, m).
Proof.
  intros Hp. unfold ModelConfig.split_once. rewrite (index_fresh c t p m Hp).
  rewrite substring_append_l.
  rewrite <- append_assoc, <- length_append, substring_append_r.
  rewrite !length_append, Nat.add_comm, Nat.add_sub.
  by rewrite substring_all.
Qed.

End StringFacts.

Section MoreStringFacts.

Lemma index_char_append (c : ascii) (a b : string) :
  String.index 0 (String c "") a = None ->
  String.index 0 (String c "") b = None ->
  String.index 0 (String c "") (a +:+ b) = None.
Proof.
  intros Ha Hb. induction a as [|x a IH]; [by rewrite append_nil|].
  rewrite index_cons, prefix_cons, prefix_nil in Ha.
  rewrite append_cons, index_cons, prefix_cons, prefix_nil.
  destruct (ascii_dec c x); [done|].
  destruct (String.index 0 (String c "") a); [done|]. by rewrite IH.
Qed.

Lemma rfind_char_none (c : ascii) (s : string) :
  String.index 0 (String c "") s = None -> ModelConfig.rfind_char c s = None.
Proof.
  induction s as [|x s IH]; [done|].
  rewrite index_cons, prefix_cons, prefix_nil.
  destruct (ascii_dec c x) as [|Hne]; [done|].
  destruct (String.index 0 (String c "") s); [done|]. intros _. simpl.
  rewrite IH by done. by destruct (Ascii.eqb_spec c x).
Qed.

(** The last [c] of [host ++ c ++ port] is the one in the middle when [port]
    has none. *)
Lemma rfind_char_fresh (c : ascii) (host port : string) :
  String.index 0 (String c "") port = None ->
  ModelConfig.rfind_char c (host +:+ String c port) = Some (String.length host).
Proof.
  intros Hp. induction host as [|x host IH].
  - rewrite append_nil. simpl. rewrite (rfind_char_none c port Hp).
    by rewrite Ascii.eqb_refl.
  - rewrite append_cons. simpl. by rewrite IH.
Qed.

Lemma rsplit_colon_fresh (host port : string) :
  String.index 0 ":" port = None ->
  ModelConfig.rsplit_colon (host +:+ ":" +:+ port) = Some (host, port).
Proof.
  intros Hp. unfold ModelConfig.rsplit_colon.
  change (":" +:+ port) with (String ":" port).
  rewrite (rfind_char_fresh ":" host port Hp), substring_append_l.
  change (String ":" port) with (":" +:+ port).
  rewrite <- append_assoc.
  replace (String.length host + 1) with (String.length (host +:+ ":"))
    by (rewrite length_append; done).
  rewrite substring_append_r, !length_append, Nat.add_comm, Nat.add_sub.
  by rewrite substring_all.
Qed.

End MoreStringFacts.

Section ModelConfigExtras.
Import ModelConfig.
Context {Model : Type} {P : Providers Model}.

Lemma contains_false (sub s : string) :
  contains sub s = false <-> String.index 0 sub s = None.
Proof. unfold contains. by destruct (String.index 0 sub s). Qed.

Lemma contains_true (sub s : string) :
  contains sub s = true <-> exists i, String.index 0 sub s = Some i.
Proof.
  unfold contains. destruct (String.index 0 sub s); split; try done.
  - by eexists.
  - by intros [i Hi].
Qed.

(** [parse_model_string] raises exactly on the strings without a colon, and
    what it raises is a [ValueError]. *)
Theorem parse_model_string_raises_iff (model_string : string) :
  (exists e, parse_model_string model_string = Raise e) <->
  contains ":" model_string = false.
Proof.
  rewrite contains_false. unfold parse_model_string, split_once. split.
  - intros [e He].
    destruct (String.index 0 "://" model_string); [done|].
    by destruct (String.index 0 ":" model_string).
  - intros Hc. rewrite (index_none_first_char ":" "//" model_string Hc), Hc.
    by eexists.
Qed.

(** What [parse_model_string] returns puts the string back together. *)
Theorem parse_model_string_join (model_string provider model_info : string) :
  parse_model_string model_string = Ok (provider, model_info) ->
  (contains "://" model_string = true /\
   model_string = provider +:+ "://" +:+ model_info /\
   contains "://" provider = false) \/
  (contains "://" model_string = false /\
   model_string = provider +:+ ":" +:+ model_info /\
   contains ":" provider = false).
Proof.
  unfold parse_model_string. intros H.
  destruct (split_once "://" model_string) as [[a b]|] eqn:Hurl.
  - injection H as <- <-. left.
    pose proof (split_once_join _ _ _ _ Hurl) as Hjoin.
    unfold split_once in Hurl.
    destruct (String.index 0 "://" model_string) as [i|] eqn:Hi; [|done].
    injection Hurl as <- _.
    split; [apply contains_true; by eexists|]. split; [done|].
    apply contains_false. by apply index_before.
  - destruct (split_once ":" model_string) as [[a b]|] eqn:Hsimple; [|done].
    injection H as <- <-. right.
    pose proof (split_once_join _ _ _ _ Hsimple) as Hjoin.
    unfold split_once in Hurl, Hsimple.
    destruct (String.index 0 "://" model_string) eqn:Hu; [done|].
    destruct (String.index 0 ":" model_string) as [i|] eqn:Hi; [|done].
    injection Hsimple as <- _.
    split; [by apply contains_false|]. split; [done|].
    apply contains_false. by apply index_before.
Qed.

Lemma parse_url_form (provider model_info : string) :
  contains ":" provider = false ->
  parse_model_string (provider +:+ "://" +:+ model_info) = Ok (provider, model_info).
Proof.
  intros Hp. apply contains_false in Hp. unfold parse_model_string.
  by rewrite (split_once_fresh ":" "//" provider model_info Hp).
Qed.

Lemma parse_simple_form (provider model_info : string) :
  contains ":" provider = false ->
  contains "://" (provider +:+ ":" +:+ model_info) = false ->
  parse_model_string (provider +:+ ":" +:+ model_info) = Ok (provider, model_info).
Proof.
  intros Hp Hu. apply contains_false in Hp, Hu. unfold parse_model_string.
  unfold split_once at 1. rewrite Hu.
  by rewrite (split_once_fresh ":" "" provider model_info Hp).
Qed.

(** A provider without a colon is read back from both forms: from
    [provider://info] always, from [provider:info] when the whole string has
    no ["://"]. *)
Theorem parse_model_string_roundtrip (provider model_info : string) :
  contains ":" provider = false ->
  parse_model_string (provider +:+ "://" +:+ model_info) = Ok (provider, model_info) /\
  (contains "://" (provider +:+ ":" +:+ model_info) = false ->
   parse_model_string (provider +:+ ":" +:+ model_info) = Ok (provider, model_info)).
Proof.
  intros Hp. split; [by apply parse_url_form|].
  intros Hu. by apply parse_simple_form.
Qed.

(** [create_local_chat_model] on ["host:port/model"]: the first slash ends
    the address, the last colon before it starts the port, and the model
    name is passed on whole. *)
Theorem create_local_chat_model_wellformed (host port model_name : string)
    (n : Z) (kwargs : Kwargs) :
  contains "/" host = false ->
  contains "/" port = false ->
  contains ":" port = false ->
  py_int port = Some n ->
  create_local_chat_model "lmstudio" (host +:+ ":" +:+ port +:+ "/" +:+ model_name) kwargs
    = ChatOpenAI ("http://" +:+ host +:+ ":" +:+ pretty n +:+ "/v1")
        model_name "lm-studio" kwargs /\
  (langchain_ollama = None ->
   create_local_chat_model "ollama" (host +:+ ":" +:+ port +:+ "/" +:+ model_name) kwargs
     = ChatOpenAI ("http://" +:+ host +:+ ":" +:+ pretty n +:+ "/v1")
         model_name "ollama" kwargs).
Proof.
  intros Hh Hp Hc Hint. apply contains_false in Hh, Hp, Hc.
  assert (Hsplit : split_once "/" (host +:+ ":" +:+ port +:+ "/" +:+ model_name)
                   = Some (host +:+ ":" +:+ port, model_name)).
  { rewrite <- (append_assoc host), <- (append_assoc (host +:+ ":")).
    rewrite (append_assoc host).
    apply (split_once_fresh "/" "" (host +:+ ":" +:+ port) model_name).
    apply index_char_append; [done|]. by apply index_char_append. }
  unfold create_local_chat_model. rewrite Hsplit.
  rewrite (rsplit_colon_fresh host port Hc), Hint.
  split; [reflexivity|]. intros Hollama. simpl. by rewrite Hollama.
Qed.

(** For a provider other than the two local ones [create_local_chat_model]
    builds nothing: whatever the model info, it raises a [ValueError]. *)
Theorem create_local_chat_model_unsupported (provider model_info : string)
    (kwargs : Kwargs) :
  provider <> "lmstudio" ->
  provider <> "ollama" ->
  exists msg, create_local_chat_model provider model_info kwargs = Raise (ValueError msg).
Proof.
  intros H1 H2. unfold create_local_chat_model.
  destruct (split_once "/" model_info) as [[host_port model_name]|]; [|by eexists].
  destruct (rsplit_colon host_port) as [[host port]|]; [|by eexists].
  destruct (py_int port); [|by eexists].
  apply String.eqb_neq in H1, H2. rewrite H1, H2. by eexists.
Qed.

(** A string ["provider:model"] of a provider that is not local reaches
    [init_chat_model] unchanged. *)
Theorem try_init_model_standard (provider model_info : string) (kwargs : Kwargs) :
  contains ":" provider = false ->
  contains "://" (provider +:+ ":" +:+ model_info) = false ->
  provider <> "lmstudio" ->
  provider <> "ollama" ->
  try_init_model (provider +:+ ":" +:+ model_info) kwargs
    = init_chat_model (provider +:+ ":" +:+ model_info) kwargs.
Proof.
  intros Hp Hu H1 H2. unfold try_init_model.
  rewrite (parse_simple_form provider model_info Hp Hu).
  apply String.eqb_neq in H1, H2. by rewrite H1, H2.
Qed.

(** The URL forms of the two local providers never reach [init_chat_model]:
    they are built by [create_local_chat_model] from the part after
    ["://"]. *)
Theorem try_init_model_local (model_info : string) (kwargs : Kwargs) :
  try_init_model ("lmstudio://" +:+ model_info) kwargs
    = create_local_chat_model "lmstudio" model_info kwargs /\
  try_init_model ("ollama://" +:+ model_info) kwargs
    = create_local_chat_model "ollama" model_info kwargs.
Proof.
  unfold try_init_model. split.
  - change ("lmstudio://" +:+ model_info) with ("lmstudio" +:+ "://" +:+ model_info).
    by rewrite (parse_url_form "lmstudio" model_info eq_refl).
  - change ("ollama://" +:+ model_info) with ("ollama" +:+ "://" +:+ model_info).
    by rewrite (parse_url_form "ollama" model_info eq_refl).
Qed.

(** With the variable unset and the default fallback, the model is the one
    of ["openai:gpt-4o"], and so is the exception when it cannot be built. *)
Theorem init_chat_model_from_env_unset (env_var : string) (kwargs : Kwargs) :
  getenv env_var = None ->
  init_chat_model_from_env env_var "openai:gpt-4o" kwargs
    = init_chat_model "openai:gpt-4o" kwargs.
Proof.
  intros Hv. unfold init_chat_model_from_env. rewrite Hv. simpl.
  change (try_init_model "openai:gpt-4o" kwargs)
    with (init_chat_model "openai:gpt-4o" kwargs).
  by destruct (init_chat_model "openai:gpt-4o" kwargs).
Qed.

(** Malformed model info raises a [ValueError] that names the defect, for
    every provider: no slash, no colon before the first slash, or a port
    that [int] rejects. *)
Theorem create_local_chat_model_malformed (provider : string) (kwargs : Kwargs) :
  (forall model_info,
     contains "/" model_info = false ->
     create_local_chat_model provider model_info kwargs
     = Raise (ValueError ("Local model info must include model name: " +:+ model_info))) /\
  (forall address model_name,
     contains "/" address = false ->
     contains ":" address = false ->
     create_local_chat_model provider (address +:+ "/" +:+ model_name) kwargs
     = Raise (ValueError ("Local model info must include port: "
                          +:+ address +:+ "/" +:+ model_name))) /\
  (forall host port model_name,
     contains "/" host = false ->
     contains "/" port = false ->
     contains ":" port = false ->
     py_int port = None ->
     create_local_chat_model provider (host +:+ ":" +:+ port +:+ "/" +:+ model_name) kwargs
     = Raise (ValueError ("Invalid port number: " +:+ port))).
Proof.
  unfold create_local_chat_model. repeat split.
  - intros model_info Hs. apply contains_false in Hs.
    unfold split_once. by rewrite Hs.
  - intros address model_name Hs Hc. apply contains_false in Hs, Hc.
    rewrite (split_once_fresh "/" "" address model_name Hs).
    unfold rsplit_colon. by rewrite (rfind_char_none ":" address Hc).
  - intros host port model_name Hh Hp Hc Hint. apply contains_false in Hh, Hp, Hc.
    assert (Hsplit : split_once "/" (host +:+ ":" +:+ port +:+ "/" +:+ model_name)
                     = Some (host +:+ ":" +:+ port, model_name)).
    { rewrite <- (append_assoc host), <- (append_assoc (host +:+ ":")).
      rewrite (append_assoc host).
      apply (split_once_fresh "/" "" (host +:+ ":" +:+ port) model_name).
      apply index_char_append; [done|]. by apply index_char_append. }
    by rewrite Hsplit, (rsplit_colon_fresh host port Hc), Hint.
Qed.

End ModelConfigExtras.

(** ** More about the report stage *)

Lemma client_creations_app a b :
  client_creations (a ++ b) = client_creations a ++ client_creations b.
Proof. apply flat_map_app. Qed.
Lemma tool_list_fetches_app a b :
  tool_list_fetches (a ++ b) = tool_list_fetches a ++ tool_list_fetches b.
Proof. apply flat_map_app. Qed.
Lemma client_creations_tool_events d : client_creations (tool_events d) = [].
Proof. induction d; simpl; auto. Qed.
Lemma tool_list_fetches_tool_events d : tool_list_fetches (tool_events d) = [].
Proof. induction d; simpl; auto. Qed.

#[export] Hint Rewrite client_creations_app tool_list_fetches_app
  client_creations_tool_events tool_list_fetches_tool_events : evlog.

Section ReportExtras.
Context {W : Type} {G : Gateways W}.

(** The dict [tools_by_name] holds, for every name, the last tool of the
    list with that name. *)
Theorem tools_by_name_of_last (tools : list Tool) (n : string) :
  tools_by_name_of tools !! n = last (filter (fun t => tool_name t = n) tools).
Proof.
  unfold tools_by_name_of.
  induction tools as [|t tools IH] using rev_ind; [done|].
  rewrite foldl_app, filter_app. simpl. rewrite lookup_insert.
  destruct (decide (tool_name t = n)) as [Heq|Hne].
  - rewrite filter_cons_True by done. rewrite filter_nil. by rewrite last_snoc.
  - rewrite filter_cons_False by done. rewrite filter_nil, app_nil_r. apply IH.
Qed.

Lemma execute_tools_client (calls : list ToolCall) (env : Env W) :
  client_created (fst (execute_tools calls env)) = true.
Proof.
  rewrite execute_tools_unfold. cbv zeta.
  destruct (snd (client_get_tools (world env))); [|done].
  match goal with |- context [execute_loop ?t ?c ?o ?e] =>
    destruct (execute_loop_spec t c o e) as (done & _ & Hcl & _);
    destruct (execute_loop t c o e) as [env2 [obs|e2]] end; simpl in *; done.
Qed.

(** [get_mcp_client] creates the client on the first use in the process and
    never again: a run of the report subgraph ends with the client created,
    and creates it once if it did not exist and not at all if it did. *)
Theorem client_created_once (st : AgentState) (env : Env W) :
  client_created (fst (research_report st env)) = true /\
  exists new : list Event,
    events (fst (research_report st env)) = events env ++ new /\
    length (client_creations new) = if client_created env then 0 else 1.
Proof.
  split.
  - rewrite research_report_chain. unfold report_chain. munfold. simpl.
    rewrite final_report_generation_unfold. cbv zeta. simpl.
    destruct (snd (client_get_tools (world env))) as [tools|e]; [|done]. simpl.
    destruct (snd (model_ainvoke _ _ _)) as [turn|e]; [|done]. simpl.
    match goal with |- context [final_report_tools ?s ?e] =>
      pose proof (execute_tools_client (tool_calls turn) e) as Hc;
      unfold final_report_tools; simpl; destruct (tool_calls turn) end; [done|].
    munfold. destruct (execute_tools _ _) as [env' [msgs|e']]; simpl in *; done.
  - destruct (research_report_run st env) as (new & Hev & Hrun).
    exists new. split; [done|].
    destruct Hrun; unfold generation_events, client_events;
      destruct (client_created env);
      repeat (progress (autorewrite with evlog; simpl)); done.
Qed.


(** The tool list is fetched once by generation and once more by the tools
    node, which does not reuse the first list: a run fetches it at most
    twice, and a run that returns fetched it twice when the turn had tool
    calls (the final report is then the text) and once when it had none. *)
Theorem tool_list_fetched_per_node (st : AgentState) (env : Env W) :
  exists new : list Event,
    events (fst (research_report st env)) = events env ++ new /\
    1 <= length (tool_list_fetches new) <= 2 /\
    (forall st', snd (research_report st env) = Ok st' ->
       length (tool_list_fetches new)
       = match final_report st' with
         | Some (ReportText _) => 2
         | _ => 1
         end).
Proof.
  destruct (research_report_run st env) as (new & Hev & Hrun).
  exists new. split; [done|].
  destruct Hrun; unfold generation_events, client_events;
    destruct (client_created env);
    repeat (progress (autorewrite with evlog; simpl));
    (split; [lia|]); try discriminate; intros st' [= <-]; simpl; done.
Qed.


(** When the tool list cannot be fetched, generation raises that error: the
    model is not invoked and nothing is written. *)
Theorem tool_list_failure_stops_generation (st : AgentState) (env : Env W) (e : PyExn) :
  snd (client_get_tools (world env)) = Raise e ->
  research_report st env
  = (mkEnv (fst (client_get_tools (world env))) true
       (events env ++ [EvNode "final_report_generation"] ++ client_events env
        ++ [EvGetTools]),
     Raise e).
Proof.
  intros Hf. rewrite research_report_chain. unfold report_chain. munfold. simpl.
  rewrite final_report_generation_unfold. cbv zeta. simpl. rewrite Hf.
  unfold after_fetch, client_events. simpl. by rewrite <- !app_assoc.
Qed.

(** When the model raises, the report stage raises that error right after
    the invocation: nothing is written and the tools node does not run. *)
Theorem model_failure_stops_report (st : AgentState) (env : Env W)
    (tools : list Tool) (e : PyExn) :
  snd (client_get_tools (world env)) = Ok tools ->
  snd (model_ainvoke tools (report_prompt st (world env))
         (fst (client_get_tools (world env)))) = Raise e ->
  research_report st env
  = (mkEnv (fst (model_ainvoke tools (report_prompt st (world env))
                   (fst (client_get_tools (world env))))) true
       (events env ++ [EvNode "final_report_generation"] ++ client_events env
        ++ [EvGetTools; EvModel tools (report_prompt st (world env))]),
     Raise e).
Proof.
  intros Hf Hm. rewrite research_report_chain. unfold report_chain. munfold. simpl.
  rewrite final_report_generation_unfold. cbv zeta. simpl. rewrite Hf. simpl.
  unfold report_prompt in *. simpl. rewrite Hm.
  unfold after_fetch, client_events. simpl. by repeat (rewrite <- app_assoc; simpl).
Qed.

(** The tools node does nothing on its own result: run again on the state
    it produced, it returns at once, with no call and no write. *)
Theorem final_report_tools_idempotent (st : AgentState) (env env' : Env W)
    (cmd : Command) :
  final_report_tools st env = (env', Ok cmd) ->
  final_report_tools (apply_update st (update cmd)) env'
  = (env', Ok {| goto := Some END; update := empty_update |}).
Proof.
  unfold final_report_tools at 1.
  destruct (final_report st) as [[turn|text]|] eqn:Hfr.
  - destruct (tool_calls turn) as [|tc calls] eqn:Hc.
    + intros [= <- <-]. rewrite apply_empty_update.
      unfold final_report_tools. by rewrite Hfr, Hc.
    + munfold. destruct (execute_tools _ _) as [env2 [msgs|e]]; [|done].
      by intros [= <- <-].
  - intros [= <- <-]. rewrite apply_empty_update.
    unfold final_report_tools. by rewrite Hfr.
  - intros [= <- <-]. rewrite apply_empty_update.
    unfold final_report_tools. by rewrite Hfr.
Qed.

End ReportExtras.

Section AgentExtras.
Context {W : Type} {G : Gateways W} {St : Stages W}.

Lemma report_run_nodes (st : AgentState) (env : Env W) (new : list Event)
    (r : Result AgentState) :
  report_run st env new r ->
  prefix (node_trace new) ["final_report_generation"; "final_report_tools"] /\
  (forall st', r = Ok st' ->
     node_trace new = ["final_report_generation"; "final_report_tools"] /\
     research_brief st' = research_brief st /\
     final_report st' <> None).
Proof.
  intros Hrun.
  destruct Hrun; unfold generation_events, client_events;
    destruct (client_created env);
    repeat (progress (autorewrite with evlog; simpl));
    (split; [first [by exists ["final_report_tools"] | by exists []]|]);
    try discriminate; intros st' [= <-]; simpl; done.
Qed.

(** The stages run in the order scope, supervisor, report (generation, then
    tools), each at most once.  A run that returns ran all of them when the
    brief is non-empty and the scoping stage alone when it is not. *)
Theorem agent_stage_order (st0 : AgentState) (env : Env W) :
  exists new : list Event,
    events (fst (agent st0 env)) = events env ++ new /\
    prefix (node_trace new)
      ["scope_subgraph"; "supervisor_subgraph"; "report_subgraph";
       "final_report_generation"; "final_report_tools"] /\
    (forall st', snd (agent st0 env) = Ok st' ->
       node_trace new
       = if truthy (research_brief st')
         then ["scope_subgraph"; "supervisor_subgraph"; "report_subgraph";
               "final_report_generation"; "final_report_tools"]
         else ["scope_subgraph"]).
Proof.
  rewrite agent_chain_eq. unfold agent_chain, scope_node, supervisor_node. munfold.
  simpl.
  destruct (snd (research_scope st0 (world env))) as [su|e]; simpl.
  2:{ exists [EvNode "scope_subgraph"]. split; [done|]. simpl.
      split; [by eexists|discriminate]. }
  destruct (truthy _) eqn:Hb; simpl.
  2:{ eexists. rewrite <- app_assoc. split; [reflexivity|]. simpl.
      split; [by eexists|]. intros st' [= <-]. simpl. by rewrite Hb. }
  destruct (snd (supervisor_agent _ _)) as [sv|e]; simpl.
  2:{ eexists. repeat (rewrite <- app_assoc; simpl). split; [reflexivity|].
      simpl. split; [by eexists|discriminate]. }
  match goal with |- context [research_report ?s ?e] =>
    destruct (research_report_run s e) as (new & Hev & Hrun);
    destruct (research_report s e) as [env' r] end.
  apply report_run_nodes in Hrun as [[k Hk] Hok]. simpl in *.
  assert (Hpre : prefix ("scope_subgraph" :: "supervisor_subgraph"
                         :: "report_subgraph" :: node_trace new)
                   ["scope_subgraph"; "supervisor_subgraph"; "report_subgraph";
                    "final_report_generation"; "final_report_tools"]).
  { destruct (node_trace new) as [|n1 [|n2 [|n3 l]]]; simpl in *.
    - by eexists.
    - injection Hk as <- _. by eexists.
    - injection Hk as <- <- _. by eexists.
    - discriminate Hk. }
  destruct r as [sub|e]; simpl.
  - destruct (Hok _ eq_refl) as (Hnt & Hbrief & _).
    rewrite Hev. eexists. repeat (rewrite <- app_assoc; simpl).
    split; [reflexivity|]. repeat (progress (autorewrite with evlog; simpl)).
    rewrite ?app_nil_r. split; [exact Hpre|].
    intros st' [= <-]. rewrite Hnt. simpl. rewrite Hbrief.
    set (b0 := match su_research_brief su with
               | Some b => Some b
               | None => research_brief st0
               end) in *.
    replace (match b0 with Some b => Some b | None => b0 end) with b0
      by (by destruct b0).
    by rewrite Hb.
  - rewrite Hev. eexists. repeat (rewrite <- app_assoc; simpl).
    split; [reflexivity|]. autorewrite with evlog. simpl.
    split; [exact Hpre|discriminate].
Qed.

(** A run that starts without a final report returns one exactly when the
    brief is non-empty: the outcome is either a clarification (no brief, no
    report) or a report. *)
Theorem agent_report_iff_brief (st0 st' : AgentState) (env : Env W) :
  final_report st0 = None ->
  snd (agent st0 env) = Ok st' ->
  (final_report st' = None <-> truthy (research_brief st') = false).
Proof.
  intros Hnone. rewrite agent_chain_eq.
  unfold agent_chain, scope_node, supervisor_node. munfold. simpl.
  destruct (snd (research_scope st0 (world env))) as [su|e]; simpl; [|done].
  destruct (truthy _) eqn:Hb; simpl.
  2:{ intros [= <-]. simpl. by rewrite Hb. }
  destruct (snd (supervisor_agent _ _)) as [sv|e]; simpl; [|done].
  match goal with |- context [research_report ?s ?e] =>
    destruct (research_report_run s e) as (new & _ & Hrun);
    destruct (research_report s e) as [env' [sub|err]] end; simpl in *; [|done].
  apply report_run_nodes in Hrun as [_ Hok].
  destruct (Hok _ eq_refl) as (_ & Hbrief & Hfr).
  intros [= <-]. simpl in Hbrief. simpl. rewrite Hbrief.
  set (b0 := match su_research_brief su with
             | Some b => Some b
             | None => research_brief st0
             end) in *.
  replace (match b0 with Some b => Some b | None => b0 end) with b0
    by (by destruct b0).
  rewrite Hb. split; [|discriminate]. intros Hn. exfalso. apply Hfr.
  by destruct (final_report sub).
Qed.

(** When the scoping stage raises, the run raises the same error and no
    other stage runs. *)
Theorem scope_failure_ends_run (st0 : AgentState) (env : Env W) (e : PyExn) :
  snd (research_scope st0 (world env)) = Raise e ->
  agent st0 env
  = (mkEnv (fst (research_scope st0 (world env))) (client_created env)
       (events env ++ [EvNode "scope_subgraph"]),
     Raise e).
Proof.
  intros He. rewrite agent_chain_eq. unfold agent_chain, scope_node. munfold.
  simpl. by rewrite He.
Qed.

(** When the supervisor raises, the run raises the same error: the report
    stage does not run and no final report is written. *)
Theorem supervisor_failure_ends_run (st0 : AgentState) (env : Env W)
    (su : ScopeUpdate) (e : PyExn) :
  snd (research_scope st0 (world env)) = Ok su ->
  truthy (research_brief (apply_update st0 (scope_update su))) = true ->
  snd (supervisor_agent (apply_update st0 (scope_update su))
         (fst (research_scope st0 (world env)))) = Raise e ->
  agent st0 env
  = (mkEnv (fst (supervisor_agent (apply_update st0 (scope_update su))
                   (fst (research_scope st0 (world env)))))
       (client_created env)
       (events env ++ [EvNode "scope_subgraph";
                       EvWrite "scope_subgraph" (scope_update su);
                       EvNode "supervisor_subgraph"]),
     Raise e).
Proof.
  intros Hs Hb He. rewrite agent_chain_eq.
  unfold agent_chain, scope_node, supervisor_node. munfold.
  simpl. rewrite Hs. simpl. simpl in Hb. rewrite Hb. simpl.
  simpl in He. rewrite He. by repeat (rewrite <- app_assoc; simpl).
Qed.

(** The routing function only returns keys of the path map of the
    conditional edge, so leaving the scoping node never fails. *)
Theorem route_after_scoping_in_path_map (st : AgentState) :
  (route_after_scoping st = "supervisor_subgraph" \/ route_after_scoping st = "__end__") /\
  branch_targets (W := W) deep_researcher_builder "scope_subgraph" st
  = Ok [if truthy (research_brief st) then "supervisor_subgraph" else END].
Proof.
  split.
  - unfold route_after_scoping. destruct (truthy _); [by left|by right].
  - unfold branch_targets.
    change (g_branches deep_researcher_builder !! "scope_subgraph")
      with (Some (route_after_scoping,
                  [("__end__", END); ("supervisor_subgraph", "supervisor_subgraph")])).
    unfold route_after_scoping. by destruct (truthy (research_brief st)).
Qed.

End AgentExtras.

Section EvaluationProofs.
Import Evaluation.

(** The score looks at the last message alone: it is true exactly when the
    number of tool calls of that assistant turn is the expected number of
    threads, whatever came before; without a last assistant turn the
    evaluator raises. *)
Theorem evaluate_parallelism_last (earlier : list Message) (n : Z) :
  (forall m,
     evaluate_parallelism (earlier ++ [AssistantMessage m]) n
     = Ok (mkFeedback "correct_next_step"
             (Z.eqb (Z.of_nat (length (tool_calls m))) n))) /\
  (forall text, exists e, evaluate_parallelism (earlier ++ [TextMessage text]) n = Raise e) /\
  (forall c nm i, exists e,
     evaluate_parallelism (earlier ++ [ToolMessage c nm i]) n = Raise e) /\
  (exists e, evaluate_parallelism [] n = Raise e).
Proof.
  unfold evaluate_parallelism. repeat split.
  - intros m. by rewrite last_snoc.
  - intros text. rewrite last_snoc. by eexists.
  - intros c nm i. rewrite last_snoc. by eexists.
  - by eexists.
Qed.

End EvaluationProofs.

Section McpListProofs.
Import McpListExample.

Lemma length_substring_0 (n : nat) (s : string) :
  n <= String.length s -> String.length (String.substring 0 n s) = n.
Proof.
  revert s. induction n as [|n IH]; intros s Hn; [by destruct s|].
  destruct s as [|c s]; simpl in *; [lia|]. rewrite IH; [done|lia].
Qed.

(** A row never shows more than 80 characters: a description of at most 80
    is shown whole, a longer one as its first 77 characters and three
    dots. *)
Theorem row_description_bound (description : string) :
  String.length (row_description description) <= 80 /\
  (String.length description <= 80 -> row_description description = description) /\
  (80 < String.length description ->
     row_description description = String.substring 0 77 description +:+ "..." /\
     String.length (row_description description) = 80).
Proof.
  unfold row_description.
  destruct (Nat.ltb_spec 80 (String.length description)) as [Hlong|Hshort].
  - rewrite length_append, length_substring_0 by lia. simpl.
    split; [lia|]. split; [lia|]. intros _. split; [done|lia].
  - split; [lia|]. split; [done|lia].
Qed.

End McpListProofs.

(** ** Examples for the statements above *)

(** ["openai:gpt-4o"] is in the simple form. *)
Lemma parse_model_string_join_witness :
  ModelConfig.parse_model_string "openai:gpt-4o" = Ok ("openai", "gpt-4o") /\
  "openai:gpt-4o" = "openai" +:+ ":" +:+ "gpt-4o" /\
  contains ":" "openai" = false.
Proof.
  split; [reflexivity|].
  destruct (parse_model_string_join "openai:gpt-4o" "openai" "gpt-4o" eq_refl)
    as [[Hc _]|[_ Hs]]; [discriminate Hc|exact Hs].
Defined.

(** An Ollama URL whose model name has a colon of its own. *)
Lemma parse_model_string_roundtrip_witness :
  contains ":" "ollama" = false /\
  ModelConfig.parse_model_string ("ollama" +:+ "://" +:+ "localhost:11434/gemma3-lc:12b")
  = Ok ("ollama", "localhost:11434/gemma3-lc:12b").
Proof.
  split; [reflexivity|].
  exact (proj1 (parse_model_string_roundtrip "ollama" "localhost:11434/gemma3-lc:12b"
                  eq_refl)).
Defined.

(** The model name keeps its slash. *)
Lemma create_local_chat_model_wellformed_witness :
  contains "/" "localhost" = false /\
  contains "/" "1234" = false /\
  contains ":" "1234" = false /\
  @ModelConfig.py_int _ Demo.providers "1234" = Some 1234%Z /\
  ModelConfig.create_local_chat_model (P := Demo.providers) "lmstudio"
    ("localhost" +:+ ":" +:+ "1234" +:+ "/" +:+ "qwen/qwen3-4b-thinking-2507") []
  = Ok "ChatOpenAI(qwen/qwen3-4b-thinking-2507 at http://localhost:1234/v1)".
Proof.
  split; [reflexivity|]. split; [reflexivity|]. split; [reflexivity|].
  split; [reflexivity|].
  rewrite (proj1 (create_local_chat_model_wellformed (P := Demo.providers)
                    "localhost" "1234" "qwen/qwen3-4b-thinking-2507" 1234%Z []
                    eq_refl eq_refl eq_refl eq_refl)).
  reflexivity.
Defined.

(** ["openai"] is not a local provider. *)
Lemma create_local_chat_model_unsupported_witness :
  "openai" <> "lmstudio" /\ "openai" <> "ollama" /\
  exists msg,
    ModelConfig.create_local_chat_model (P := Demo.providers) "openai"
      "localhost:1234/gpt-4o" [] = Raise (ValueError msg).
Proof.
  split; [discriminate|]. split; [discriminate|].
  apply (create_local_chat_model_unsupported (P := Demo.providers));
    discriminate.
Defined.

(** An Anthropic model string goes to [init_chat_model] as it is. *)
Lemma try_init_model_standard_witness :
  contains ":" "anthropic" = false /\
  contains "://" ("anthropic" +:+ ":" +:+ "claude-3-5-sonnet-20241022") = false /\
  ModelConfig.try_init_model (P := Demo.providers)
    ("anthropic" +:+ ":" +:+ "claude-3-5-sonnet-20241022") []
  = @ModelConfig.init_chat_model _ Demo.providers
      ("anthropic" +:+ ":" +:+ "claude-3-5-sonnet-20241022") [].
Proof.
  split; [reflexivity|]. split; [reflexivity|].
  apply (try_init_model_standard (P := Demo.providers));
    [reflexivity|reflexivity|discriminate|discriminate].
Defined.

(** [SCOPE_MODEL] is not set in the demo environment. *)
Lemma init_chat_model_from_env_unset_witness :
  @ModelConfig.getenv _ Demo.providers "SCOPE_MODEL" = None /\
  ModelConfig.get_scope_model (P := Demo.providers) [] = Ok "ChatOpenAI(gpt-4o)".
Proof.
  split; [reflexivity|]. unfold ModelConfig.get_scope_model.
  rewrite (init_chat_model_from_env_unset (P := Demo.providers) "SCOPE_MODEL" []
             eq_refl).
  reflexivity.
Defined.


(** The MCP server is down: generation raises before the model is asked. *)
Lemma tool_list_failure_stops_generation_witness :
  snd (@client_get_tools nat Outage.tools_down (world Demo.env0))
    = Raise (OtherException "MCP server unreachable") /\
  research_report (G := Outage.tools_down) Demo.researched Demo.env0
  = (mkEnv 1 true [EvNode "final_report_generation"; EvNewClient; EvGetTools],
     Raise (OtherException "MCP server unreachable")).
Proof.
  split; [reflexivity|].
  apply (tool_list_failure_stops_generation (G := Outage.tools_down)
           Demo.researched Demo.env0 (OtherException "MCP server unreachable") eq_refl).
Defined.

(** The model backend is down: nothing is written. *)
Lemma model_failure_stops_report_witness :
  snd (@client_get_tools nat Outage.model_down (world Demo.env0))
    = Ok [Demo.read_file; Demo.write_file] /\
  snd (research_report (G := Outage.model_down) Demo.researched Demo.env0)
  = Raise (OtherException "model backend error") /\
  final_report_writes
    (events (fst (research_report (G := Outage.model_down) Demo.researched Demo.env0)))
  = [].
Proof.
  split; [reflexivity|].
  rewrite (model_failure_stops_report (G := Outage.model_down)
             Demo.researched Demo.env0 [Demo.read_file; Demo.write_file]
             (OtherException "model backend error") eq_refl eq_refl).
  split; reflexivity.
Defined.

(** The tools node after two successful writes, run again. *)
Lemma final_report_tools_idempotent_witness :
  exists env' cmd,
    final_report_tools (G := Demo.gateways Demo.turn_saved)
      (Demo.generated Demo.turn_saved) Demo.env0 = (env', Ok cmd) /\
    final_report_tools (G := Demo.gateways Demo.turn_saved)
      (apply_update (Demo.generated Demo.turn_saved) (update cmd)) env'
    = (env', Ok {| goto := Some END; update := empty_update |}).
Proof.
  eexists _, _. split; [vm_compute; reflexivity|].
  apply (final_report_tools_idempotent (G := Demo.gateways Demo.turn_saved)
           (Demo.generated Demo.turn_saved) Demo.env0).
  vm_compute. reflexivity.
Defined.

(** A clarification run: no brief, no report. *)
Lemma agent_report_iff_brief_witness :
  final_report (initial_state [TextMessage "cats"]) = None /\
  exists st',
    snd (agent (G := Demo.gateways Demo.turn_plain) (St := Demo.stages None)
           (initial_state [TextMessage "cats"]) Demo.env0) = Ok st' /\
    (final_report st' = None <-> truthy (research_brief st') = false).
Proof.
  split; [reflexivity|]. eexists. split; [vm_compute; reflexivity|].
  apply (agent_report_iff_brief (G := Demo.gateways Demo.turn_plain)
           (St := Demo.stages None) (initial_state [TextMessage "cats"]) _ Demo.env0
           eq_refl).
  vm_compute. reflexivity.
Defined.

(** Scoping is down. *)
Lemma scope_failure_ends_run_witness :
  snd (@research_scope nat Outage.scope_down (initial_state [TextMessage "cats"])
         (world Demo.env0)) = Raise (OtherException "scoping failed") /\
  agent (G := Demo.gateways Demo.turn_plain) (St := Outage.scope_down)
    (initial_state [TextMessage "cats"]) Demo.env0
  = (mkEnv 1 false [EvNode "scope_subgraph"], Raise (OtherException "scoping failed")).
Proof.
  split; [reflexivity|].
  apply (scope_failure_ends_run (G := Demo.gateways Demo.turn_plain)
           (St := Outage.scope_down) (initial_state [TextMessage "cats"]) Demo.env0
           (OtherException "scoping failed") eq_refl).
Defined.

(** The supervisor is down: the run stops before the report stage. *)
Lemma supervisor_failure_ends_run_witness :
  snd (@research_scope nat Outage.supervisor_down (initial_state [TextMessage "cats"])
         (world Demo.env0))
    = Ok (mkScopeUpdate (Some "brief") [TextMessage "scoped"]) /\
  agent (G := Demo.gateways Demo.turn_plain) (St := Outage.supervisor_down)
    (initial_state [TextMessage "cats"]) Demo.env0
  = (mkEnv 2 false
       [EvNode "scope_subgraph";
        EvWrite "scope_subgraph"
          (scope_update (mkScopeUpdate (Some "brief") [TextMessage "scoped"]));
        EvNode "supervisor_subgraph"],
     Raise (OtherException "all threads failed")).
Proof.
  split; [reflexivity|].
  apply (supervisor_failure_ends_run (G := Demo.gateways Demo.turn_plain)
           (St := Outage.supervisor_down) (initial_state [TextMessage "cats"]) Demo.env0
           (mkScopeUpdate (Some "brief") [TextMessage "scoped"])
           (OtherException "all threads failed") eq_refl eq_refl eq_refl).
Defined.
